(** * governance-core: the orchestration layer and its boundary handlers

    A shallow embedding of [src/lib.ts] (class [GovernanceCore]),
    [src/handlers/index.ts] (the validating request handlers), and the
    parts of [src/types.ts] and [src/adapters] they consume.

    Conventions of the embedding.
    - A JavaScript string is a [string]; each character stands for the
      UTF-16 code unit with the same number, so the strings covered are
      those whose code units are below 256.
    - A JavaScript number that carries a cost is a binary64 [float]
      (primitive floats compute exactly as IEEE 754 does); a millisecond
      time value is an integer [Z].
    - An [async] method is a computation in the monad [M]: it threads the
      log of collaborator calls and the number of clock reads, and it
      completes by returning a value or by throwing.
    - A collaborator call is a function from the request to the way its
      promise settles: fulfilled with a result envelope, or rejected. *)

From Stdlib Require Import ZArith String Ascii List DecimalString.
From Stdlib Require Import Floats.PrimFloat.
From stdpp Require Import base option list gmap strings.

Set Warnings "-register-all".
Local Open Scope string_scope.

(* ====================================================================== *)
(** ** JavaScript values *)
(* ====================================================================== *)

(** The dynamically typed values that cross the boundary ([unknown] in the
    handlers, [Record<string, unknown>] in contexts and metadata). *)
Inductive JsVal : Type :=
| JUndefined
| JNull
| JBool (b : bool)
| JNum (x : float)
| JStr (s : string)
| JArr (items : list JsVal)
| JObj (props : gmap string JsVal).

(** [!!v] in JavaScript. *)
Definition truthy (v : JsVal) : bool :=
  match v with
  | JUndefined | JNull => false
  | JBool b => b
  | JNum x => negb (PrimFloat.eqb x 0%float || PrimFloat.is_nan x)
  | JStr s => negb (String.eqb s "")
  | JArr _ | JObj _ => true
  end.

(** [typeof v]. *)
Definition typeof (v : JsVal) : string :=
  match v with
  | JUndefined => "undefined"
  | JNull => "object"
  | JBool _ => "boolean"
  | JNum _ => "number"
  | JStr _ => "string"
  | JArr _ | JObj _ => "object"
  end.

(** [Array.isArray(v)]. *)
Definition isArray (v : JsVal) : bool :=
  match v with JArr _ => true | _ => false end.

(** [v.k] for a value that is neither [undefined] nor [null].  The code
    only reads the names requestId, resourceId, action, principal, context,
    timestamp, resource, outcome, metadata, roles and permissions, none of
    which an array, a primitive or [Object.prototype] defines, so only own
    properties of a plain object can answer. *)
Definition getProp (v : JsVal) (k : string) : JsVal :=
  match v with
  | JObj props => default JUndefined (props !! k)
  | _ => JUndefined
  end.

(** White space and line terminators removed by [String.prototype.trim],
    among the code units below 256: TAB, LF, VT, FF, CR, SP and NBSP. *)
Definition isWhiteSpace (c : ascii) : bool :=
  let n := nat_of_ascii c in
  (n =? 9)%nat || (n =? 10)%nat || (n =? 11)%nat || (n =? 12)%nat
  || (n =? 13)%nat || (n =? 32)%nat || (n =? 160)%nat.

Fixpoint trimStart (s : string) : string :=
  match s with
  | EmptyString => EmptyString
  | String c s' => if isWhiteSpace c then trimStart s' else s
  end.

Fixpoint trimEnd (s : string) : string :=
  match s with
  | EmptyString => EmptyString
  | String c s' =>
      match trimEnd s' with
      | EmptyString => if isWhiteSpace c then EmptyString else String c EmptyString
      | t => String c t
      end
  end.

(** [s.trim()]. *)
Definition trim (s : string) : string := trimEnd (trimStart s).

(** A string made of white space only (the empty string included). *)
Fixpoint whitespaceOnly (s : string) : bool :=
  match s with
  | EmptyString => true
  | String c s' => isWhiteSpace c && whitespaceOnly s'
  end.

(** [a || b] on an optional string: the empty string is falsy. *)
Definition orElse (a : option string) (b : string) : string :=
  match a with
  | Some s => if String.eqb s "" then b else s
  | None => b
  end.

(** Template-literal conversion of an integral number (below 1e21 in
    magnitude, which every time value is). *)
Definition numberToString (n : Z) : string :=
  NilZero.string_of_int (Z.to_int n).

(** [xs.join(sep)]. *)
Definition join (sep : string) (xs : list string) : string :=
  String.concat sep xs.



(** [v?.k]. *)
Definition optionalProp (v : JsVal) (k : string) : JsVal :=
  match v with
  | JUndefined | JNull => JUndefined
  | _ => getProp v k
  end.

(** [v || []]. *)
Definition orEmptyArray (v : JsVal) : JsVal :=
  if truthy v then v else JArr [].

(** [xs.flat()]: one level of arrays is spread, anything else is kept. *)
Definition flat (xs : list JsVal) : list JsVal :=
  List.concat ((λ x, match x with JArr items => items | _ => [x] end) <$> xs).

(** SameValueZero, the equality of [Set].  Every array and every object
    of a configuration value is taken to be an object of its own, so two
    of them are never the same value. *)
Definition sameValueZero (x y : JsVal) : bool :=
  match x, y with
  | JUndefined, JUndefined => true
  | JNull, JNull => true
  | JBool a, JBool b => Bool.eqb a b
  | JNum a, JNum b => PrimFloat.eqb a b || (PrimFloat.is_nan a && PrimFloat.is_nan b)
  | JStr a, JStr b => String.eqb a b
  | _, _ => false
  end.

(** [Array.from(new Set(xs))] on values. *)
Fixpoint setAddAllValues (seen : list JsVal) (xs : list JsVal) : list JsVal :=
  match xs with
  | [] => seen
  | x :: xs' =>
      if existsb (sameValueZero x) seen then setAddAllValues seen xs'
      else setAddAllValues (seen ++ [x]) xs'
  end.

Definition arrayFromSetOfValues (xs : list JsVal) : list JsVal :=
  setAddAllValues [] xs.


(** [forecast > limit] on numbers. *)
Definition gt (x y : float) : bool := PrimFloat.ltb y x.

(* ====================================================================== *)
(** ** Thrown values, completions and the monad of async methods *)
(* ====================================================================== *)

Inductive Thrown : Type :=
| ErrorObj (message : string)      (* an instance of [Error] *)
| NonError (v : JsVal).            (* anything else that was thrown *)

(** [error instanceof Error ? error.message : 'Unknown error']. *)
Definition describe (error : Thrown) : string :=
  match error with
  | ErrorObj message => message
  | NonError _ => "Unknown error"
  end.

Inductive Completion (A : Type) : Type :=
| Return (a : A)
| Throw (e : Thrown).
Arguments Return {A} a.
Arguments Throw {A} e.

(** What a collaborator method does when it is called: it returns a
    promise that is fulfilled or rejected, or it throws before it returns
    one. *)
Inductive Settled (T : Type) : Type :=
| Fulfilled (r : T)
| Rejected (e : Thrown)
| Threw (e : Thrown).
Arguments Fulfilled {T} r.
Arguments Rejected {T} e.
Arguments Threw {T} e.

(** The promise of an [async] function that awaits the call and applies
    [f] to what it is fulfilled with: a throw inside an [async] function
    rejects its promise. *)
Definition settledMap {A B : Type} (f : A → B) (p : Settled A) : Settled B :=
  match p with
  | Fulfilled r => Fulfilled (f r)
  | Rejected e => Rejected e
  | Threw e => Rejected e
  end.

(* ====================================================================== *)
(** ** Data contracts ([src/types.ts]) *)
(* ====================================================================== *)

Module types.

Module GovernanceRequest.
Record t : Type := {
  requestId : string;
  resourceId : string;
  action : string;
  principal : string;
  context : option (gmap string JsVal);
}.
End GovernanceRequest.

Module PolicyEvaluationResult.
Record t : Type := {
  allowed : bool;
  policies : list string;
  reasons : list string;
}.
End PolicyEvaluationResult.

Module FinOpsSummary.
Record t : Type := {
  resourceId : string;
  currentCost : float;
  forecast : float;
  budgetStatus : string;
}.
End FinOpsSummary.

Module AuditSignal.
(** [extra] holds the properties allowed by the index signature
    [[key: string]: unknown]. *)
Record t : Type := {
  timestamp : string;
  action : string;
  principal : string;
  resource : string;
  outcome : string;
  metadata : option (gmap string JsVal);
  extra : gmap string JsVal;
}.
End AuditSignal.

Module GovernanceDecision.
Record t : Type := {
  requestId : string;
  allowed : bool;
  policyResults : PolicyEvaluationResult.t;
  costImpact : option FinOpsSummary.t;
  auditId : string;
}.
End GovernanceDecision.

Module RBACContext.
(** [roles] and [permissions] are declared [string[]], but they are
    filled with whatever the configuration entries hold. *)
Record t : Type := {
  principal : string;
  roles : list JsVal;
  permissions : list JsVal;
  scope : option string;
}.
End RBACContext.

End types.

(* ====================================================================== *)
(** ** Adapter contracts ([src/adapters]) *)
(* ====================================================================== *)

(** Only the operations and the fields the orchestrator consumes are
    kept; a [Date] is its time value in milliseconds. *)
Module adapters.

Module AdapterResponse.
Record t (T : Type) : Type := {
  success : bool;
  data : option T;
  error : option string;
}.
Arguments success {T} _.
Arguments data {T} _.
Arguments error {T} _.
End AdapterResponse.

Module CostMetrics.
Record t : Type := { totalCost : float; currency : string }.
End CostMetrics.

Module CostForecast.
Record t : Type := { projectedCost : float; confidence : float }.
End CostForecast.

Module CostFilters.
Record t : Type := { startDate : Z; endDate : Z; services : list string }.
End CostFilters.

Module ForecastParams.
Record t : Type := { horizon : Z; services : list string }.
End ForecastParams.

Inductive Severity : Type := info | warning | error | critical.

Module GovernanceEvent.
(** [timestamp] is [None] for an invalid [Date]. *)
Record t : Type := {
  eventType : string;
  severity : Severity;
  timestamp : option Z;
  details : types.AuditSignal.t;
}.
End GovernanceEvent.

Module PolicyEvaluationRequest.
Record t : Type := {
  principal : string;
  action : string;
  resource : string;
  context : gmap string JsVal;
}.
End PolicyEvaluationRequest.

Module PolicyEvaluationResult.
Record t : Type := {
  allowed : bool;
  reasons : list string;
  appliedPolicies : list string;
}.
End PolicyEvaluationResult.

Module AnalyticsEvent.
Record t : Type := {
  eventName : string;
  timestamp : Z;
  properties : gmap string JsVal;
  userId : option string;
}.
End AnalyticsEvent.

Module ConfigValue.
(** [value] is [unknown]: any value a configuration store can hold. *)
Record t : Type := { key : string; value : JsVal; version : string }.
End ConfigValue.

Module ValidationError.
Record t : Type := { path : string; message : string }.
End ValidationError.

Module ValidationResult.
Record t : Type := { valid : bool; errors : list ValidationError.t }.
End ValidationResult.

Record ICostOpsAdapter : Type := {
  getCostMetrics : CostFilters.t → Settled (AdapterResponse.t CostMetrics.t);
  getForecast : ForecastParams.t → Settled (AdapterResponse.t CostForecast.t);
}.

Record IGovernanceDashboardAdapter : Type := {
  publishEvent : GovernanceEvent.t → Settled (AdapterResponse.t unit);
}.

Record IPolicyEngineAdapter : Type := {
  evaluatePolicy :
    PolicyEvaluationRequest.t → Settled (AdapterResponse.t PolicyEvaluationResult.t);
}.

Record IAnalyticsHubAdapter : Type := {
  track : AnalyticsEvent.t → Settled (AdapterResponse.t unit);
}.

Record IConfigManagerAdapter : Type := {
  getConfig : string → Settled (AdapterResponse.t ConfigValue.t);
}.

Record ISchemaRegistryAdapter : Type := {
  validate : string → types.AuditSignal.t → Settled (AdapterResponse.t ValidationResult.t);
}.

Record AdapterCollection : Type := {
  costOps : ICostOpsAdapter;
  dashboard : IGovernanceDashboardAdapter;
  policyEngine : IPolicyEngineAdapter;
  analyticsHub : IAnalyticsHubAdapter;
  configManager : IConfigManagerAdapter;
  schemaRegistry : ISchemaRegistryAdapter;
}.

End adapters.

Import adapters.
Import types.

(* ====================================================================== *)
(** ** The world an async method runs in *)
(* ====================================================================== *)

(** What an operation does that an observer outside can see. *)
Inductive Effect : Type :=
| EvaluatePolicy (request : PolicyEvaluationRequest.t)
| GetCostMetrics (filters : CostFilters.t)
| GetForecast (params : ForecastParams.t)
| Track (event : AnalyticsEvent.t)
| GetConfig (key : string)
| Validate (schemaId : string) (signal : AuditSignal.t)
| PublishEvent (event : GovernanceEvent.t)
| ConsoleWarn (label : string) (error : Thrown).

(** [calls] is the log of effects, oldest first; [ticks] counts the reads
    of the wall clock made so far. *)
Record World : Type := {
  calls : list Effect;
  ticks : nat;
}.

(** The built-ins the code relies on: the wall clock (its [n]-th reading),
    [Date.prototype.toISOString], the [Date] string parser and the
    conversion of a number to a string.  The code does not fix which of
    two promises awaited together rejects first: [rejectsFirst later
    earlier] tells whether the rejection of the promise later in the array
    is delivered before that of the earlier one. *)
Record Runtime : Type := {
  clock : nat → Z;
  toISOString : Z → string;
  parseDate : string → option Z;
  formatNumber : float → string;
  rejectsFirst : Thrown → Thrown → bool;
}.

(** The string a template literal makes of a value, [None] where the
    conversion throws a [TypeError]: an array is joined with commas, its
    [undefined] and [null] items left empty; an object answers
    [Object.prototype.toString] unless a property of its own hides it. *)
Fixpoint toStringJs (rt : Runtime) (v : JsVal) {struct v} : option string :=
  match v with
  | JUndefined => Some "undefined"
  | JNull => Some "null"
  | JBool b => Some (if b then "true" else "false")
  | JNum x => Some (formatNumber rt x)
  | JStr s => Some s
  | JArr items =>
      String.concat "," <$>
        (fix elements (l : list JsVal) : option (list string) :=
           match l with
           | [] => Some []
           | item :: l' =>
               match match item with
                     | JUndefined | JNull => Some ""
                     | _ => toStringJs rt item
                     end with
               | Some text => cons text <$> elements l'
               | None => None
               end
           end) items
  | JObj props =>
      match props !! "toString" with
      | Some _ => None
      | None => Some "[object Object]"
      end
  end.

Definition M (A : Type) : Type := World → Completion A * World.

#[global] Instance M_ret : MRet M := λ A a w, (Return a, w).

#[global] Instance M_bind : MBind M := λ A B f m w,
  match m w with
  | (Return a, w') => f a w'
  | (Throw e, w') => (Throw e, w')
  end.

#[global] Instance M_fmap : FMap M := λ A B f m w,
  match m w with
  | (Return a, w') => (Return (f a), w')
  | (Throw e, w') => (Throw e, w')
  end.

(** [throw e]. *)
Definition throw {A : Type} (e : Thrown) : M A := λ w, (Throw e, w).

(** [try { body } catch (error) { handler(error) }]. *)
Definition tryCatch {A : Type} (body : M A) (handler : Thrown → M A) : M A := λ w,
  match body w with
  | (Return a, w') => (Return a, w')
  | (Throw e, w') => handler e w'
  end.

(** Record an effect in the log. *)
Definition emit (ev : Effect) : M unit := λ w,
  (Return tt, {| calls := calls w ++ [ev]; ticks := ticks w |}).

(** [await p] where [p] is the outcome of a call. *)
Definition await {T : Type} (p : Settled T) : M T := λ w,
  match p with
  | Fulfilled r => (Return r, w)
  | Rejected e => (Throw e, w)
  | Threw e => (Throw e, w)
  end.

(** [await adapter.method(request)]: the call is made, then awaited. *)
Definition call {T : Type} (ev : Effect) (p : Settled T) : M T :=
  _ ← emit ev; await p.

(** [adapter.method(request)] as an element of an array literal: the call
    is made and its promise kept; a method that throws ends the
    evaluation of the literal. *)
Definition start {T : Type} (ev : Effect) (p : Settled T) : M (Settled T) :=
  _ ← emit ev;
  match p with
  | Threw e => throw e
  | _ => mret p
  end.

(** The rejection [Promise.all] delivers, if any of the promises rejects. *)
Fixpoint firstRejection {T : Type} (rt : Runtime) (ps : list (Settled T))
  : option Thrown :=
  match ps with
  | [] => None
  | Fulfilled _ :: ps' => firstRejection rt ps'
  | (Rejected e | Threw e) :: ps' =>
      match firstRejection rt ps' with
      | Some e' => Some (if rejectsFirst rt e' e then e' else e)
      | None => Some e
      end
  end.

Fixpoint fulfilments {T : Type} (ps : list (Settled T)) : list T :=
  match ps with
  | [] => []
  | Fulfilled r :: ps' => r :: fulfilments ps'
  | _ :: ps' => fulfilments ps'
  end.

(** [await Promise.all(ps)] once every promise of [ps] has been started:
    the values in order, or the rejection that comes first. *)
Definition awaitAll {T : Type} (rt : Runtime) (ps : list (Settled T)) : M (list T) :=
  match firstRejection rt ps with
  | Some e => throw e
  | None => mret (fulfilments ps)
  end.

(** [await Promise.all([p, q])] with its result destructured. *)
Definition awaitBoth {A B : Type} (rt : Runtime) (p : Settled A) (q : Settled B)
  : M (A * B) :=
  match p, q with
  | Fulfilled a, Fulfilled b => mret (a, b)
  | Fulfilled _, (Rejected e | Threw e) => throw e
  | (Rejected e | Threw e), Fulfilled _ => throw e
  | (Rejected e | Threw e), (Rejected e' | Threw e') =>
      throw (if rejectsFirst rt e' e then e' else e)
  end.

Fixpoint emitAll (evs : list Effect) : M unit :=
  match evs with
  | [] => mret tt
  | ev :: evs' => _ ← emit ev; emitAll evs'
  end.

(** [Date.now()] and the time value of [new Date()]. *)
Definition dateNow (rt : Runtime) : M Z := λ w,
  (Return (clock rt (ticks w)), {| calls := calls w; ticks := S (ticks w) |}).

(** Lift a synchronous completion. *)
Definition complete {A : Type} (c : Completion A) : M A := λ w, (c, w).

(* ====================================================================== *)
(** ** The orchestrator ([src/lib.ts], class [GovernanceCore]) *)
(* ====================================================================== *)

Section GovernanceCore.

Context (rt : Runtime) (this_adapters : AdapterCollection).

(** The object literals the methods build, named so that statements can
    refer to the exact argument of each collaborator call. *)

Definition policyRequestOf (request : GovernanceRequest.t)
  : PolicyEvaluationRequest.t :=
  {| PolicyEvaluationRequest.principal := GovernanceRequest.principal request;
     PolicyEvaluationRequest.action := GovernanceRequest.action request;
     PolicyEvaluationRequest.resource := GovernanceRequest.resourceId request;
     PolicyEvaluationRequest.context :=
       default ∅ (GovernanceRequest.context request) |}.

Definition policyResultsOf (payload : adapters.PolicyEvaluationResult.t)
  : PolicyEvaluationResult.t :=
  {| PolicyEvaluationResult.allowed := adapters.PolicyEvaluationResult.allowed payload;
     PolicyEvaluationResult.policies :=
       adapters.PolicyEvaluationResult.appliedPolicies payload;
     PolicyEvaluationResult.reasons := adapters.PolicyEvaluationResult.reasons payload |}.

Definition analyticsEventOf (request : GovernanceRequest.t) (allowed : bool) (now : Z)
  : AnalyticsEvent.t :=
  {| AnalyticsEvent.eventName := "governance.evaluation";
     AnalyticsEvent.timestamp := now;
     AnalyticsEvent.properties :=
       <["requestId" := JStr (GovernanceRequest.requestId request)]>
       (<["resourceId" := JStr (GovernanceRequest.resourceId request)]>
       (<["action" := JStr (GovernanceRequest.action request)]>
       (<["principal" := JStr (GovernanceRequest.principal request)]>
       (<["allowed" := JBool allowed]> ∅))));
     AnalyticsEvent.userId := Some (GovernanceRequest.principal request) |}.

Definition auditIdOf (request : GovernanceRequest.t) (now : Z) : string :=
  "audit-" +:+ GovernanceRequest.requestId request +:+ "-" +:+ numberToString now.

Definition auditSignalOf (request : GovernanceRequest.t)
    (policyResults : PolicyEvaluationResult.t) (now : Z) : AuditSignal.t :=
  {| AuditSignal.timestamp := toISOString rt now;
     AuditSignal.action := GovernanceRequest.action request;
     AuditSignal.principal := GovernanceRequest.principal request;
     AuditSignal.resource := GovernanceRequest.resourceId request;
     AuditSignal.outcome :=
       if PolicyEvaluationResult.allowed policyResults then "allowed" else "denied";
     AuditSignal.metadata := Some (
       <["requestId" := JStr (GovernanceRequest.requestId request)]>
       (<["policies" := JArr (JStr <$> PolicyEvaluationResult.policies policyResults)]>
       (<["reasons" := JArr (JStr <$> PolicyEvaluationResult.reasons policyResults)]> ∅)));
     AuditSignal.extra := ∅ |}.

Definition costFiltersOf (resourceId : string) (now : Z) : CostFilters.t :=
  {| CostFilters.startDate := now - 30 * 24 * 60 * 60 * 1000;
     CostFilters.endDate := now;
     CostFilters.services := [resourceId] |}.

Definition forecastParamsOf (resourceId : string) : ForecastParams.t :=
  {| ForecastParams.horizon := 30; ForecastParams.services := [resourceId] |}.

Definition governanceEventOf (signal : AuditSignal.t) : GovernanceEvent.t :=
  {| GovernanceEvent.eventType := "audit.signal";
     GovernanceEvent.severity :=
       if String.eqb (AuditSignal.outcome signal) "denied" then warning else info;
     GovernanceEvent.timestamp := parseDate rt (AuditSignal.timestamp signal);
     GovernanceEvent.details := signal |}.

(** [async getFinOpsSummary(resourceId)].  The array literal calls
    [getCostMetrics], then [getForecast]; [Promise.all] awaits the two
    promises together. *)
Definition getFinOpsSummary (resourceId : string) : M FinOpsSummary.t :=
  tryCatch
    (now ← dateNow rt;
     let filters := costFiltersOf resourceId now in
     let params := forecastParamsOf resourceId in
     metricsPromise ←
       start (GetCostMetrics filters) (getCostMetrics (costOps this_adapters) filters);
     forecastPromise ←
       start (GetForecast params) (getForecast (costOps this_adapters) params);
     '(metricsResponse, forecastResponse) ← awaitBoth rt metricsPromise forecastPromise;
     match AdapterResponse.success metricsResponse,
           AdapterResponse.data metricsResponse with
     | true, Some metrics =>
         match AdapterResponse.success forecastResponse,
               AdapterResponse.data forecastResponse with
         | true, Some projection =>
             let currentCost := CostMetrics.totalCost metrics in
             let forecast := CostForecast.projectedCost projection in
             let budgetStatus :=
               if gt forecast (currentCost * 1.5)%float then "exceeded"
               else if gt forecast (currentCost * 0x1.3333333333333p+0)%float
                    then "warning"
                    else "within" in
             mret {| FinOpsSummary.resourceId := resourceId;
                     FinOpsSummary.currentCost := currentCost;
                     FinOpsSummary.forecast := forecast;
                     FinOpsSummary.budgetStatus := budgetStatus |}
         | _, _ =>
             throw (ErrorObj (orElse (AdapterResponse.error forecastResponse)
                                     "Failed to get cost forecast"))
         end
     | _, _ =>
         throw (ErrorObj (orElse (AdapterResponse.error metricsResponse)
                                 "Failed to get cost metrics"))
     end)
    (λ error, throw (ErrorObj ("FinOps summary failed: " +:+ describe error))).

(** [async emitAuditSignal(signal)]. *)
Definition emitAuditSignal (signal : AuditSignal.t) : M unit :=
  tryCatch
    (validationResponse ←
       call (Validate "audit.signal.v1" signal)
            (validate (schemaRegistry this_adapters) "audit.signal.v1" signal);
     if negb (AdapterResponse.success validationResponse)
        || negb (from_option ValidationResult.valid false
                   (AdapterResponse.data validationResponse))
     then
       let errors := from_option ValidationResult.errors []
                       (AdapterResponse.data validationResponse) in
       throw (ErrorObj ("Audit signal validation failed: "
                        +:+ join ", " (ValidationError.message <$> errors)))
     else
       let event := governanceEventOf signal in
       _ ← call (PublishEvent event) (publishEvent (dashboard this_adapters) event);
       mret tt)
    (λ error, throw (ErrorObj ("Audit signal emission failed: " +:+ describe error))).

(** [async evaluateGovernance(request)]. *)
Definition evaluateGovernance (request : GovernanceRequest.t) : M GovernanceDecision.t :=
  tryCatch
    (let policyRequest := policyRequestOf request in
     policyResponse ←
       call (EvaluatePolicy policyRequest)
            (evaluatePolicy (policyEngine this_adapters) policyRequest);
     match AdapterResponse.success policyResponse,
           AdapterResponse.data policyResponse with
     | true, Some payload =>
         let policyResults := policyResultsOf payload in
         costImpact ←
           tryCatch
             (finOpsSummary ← getFinOpsSummary (GovernanceRequest.resourceId request);
              mret (Some finOpsSummary))
             (λ error,
                _ ← emit (ConsoleWarn "Failed to retrieve cost data:" error);
                mret None);
         eventTime ← dateNow rt;
         let analyticsEvent :=
           analyticsEventOf request (PolicyEvaluationResult.allowed policyResults)
                            eventTime in
         _ ← call (Track analyticsEvent) (track (analyticsHub this_adapters) analyticsEvent);
         idTime ← dateNow rt;
         let auditId := auditIdOf request idTime in
         signalTime ← dateNow rt;
         let auditSignal := auditSignalOf request policyResults signalTime in
         _ ← emitAuditSignal auditSignal;
         mret {| GovernanceDecision.requestId := GovernanceRequest.requestId request;
                 GovernanceDecision.allowed := PolicyEvaluationResult.allowed policyResults;
                 GovernanceDecision.policyResults := policyResults;
                 GovernanceDecision.costImpact := costImpact;
                 GovernanceDecision.auditId := auditId |}
     | _, _ =>
         throw (ErrorObj (orElse (AdapterResponse.error policyResponse)
                                 "Policy evaluation failed"))
     end)
    (λ error, throw (ErrorObj ("Governance evaluation failed: " +:+ describe error))).

(** [(value as { roles?: string[] })?.roles || []]: the cast checks
    nothing. *)
Definition rolesOfValue (value : JsVal) : JsVal :=
  orEmptyArray (optionalProp value "roles").

(** [(value as { permissions?: string[] })?.permissions || []]. *)
Definition permissionsOfValue (value : JsVal) : JsVal :=
  orEmptyArray (optionalProp value "permissions").

Definition permissionsKey (role : string) : string := "rbac.permissions." +:+ role.

(** The body of the [async (role) => ...] callback after its [await]. *)
Definition permissionsOfResponse (permConfig : AdapterResponse.t ConfigValue.t)
  : JsVal :=
  match AdapterResponse.success permConfig, AdapterResponse.data permConfig with
  | true, Some entry => permissionsOfValue (ConfigValue.value entry)
  | _, _ => JArr []
  end.

(** One run of the [async (role) => ...] callback up to its [await]: the
    lookup it makes, if the template literal yields a key, and the promise
    the callback returns. *)
Definition permissionLookup (role : JsVal) : option Effect * Settled JsVal :=
  match toStringJs rt role with
  | Some name =>
      (Some (GetConfig (permissionsKey name)),
       settledMap permissionsOfResponse
         (getConfig (configManager this_adapters) (permissionsKey name)))
  | None => (None, Rejected (ErrorObj "Cannot convert object to primitive value"))
  end.

(** [async resolveRBAC(principal)].  [roles.map] runs every callback up
    to its [await], so all lookups are started, in role order, before
    [Promise.all] awaits them; [roles.map] is not a function unless
    [roles] is an array. *)
Definition resolveRBAC (principal : string) : M RBACContext.t :=
  tryCatch
    (let rolesKey := "rbac.roles." +:+ principal in
     rolesConfig ←
       call (GetConfig rolesKey) (getConfig (configManager this_adapters) rolesKey);
     match AdapterResponse.success rolesConfig, AdapterResponse.data rolesConfig with
     | true, Some entry =>
         match rolesOfValue (ConfigValue.value entry) with
         | JArr roles =>
             let lookups := permissionLookup <$> roles in
             _ ← emitAll (omap fst lookups);
             permissionSets ← awaitAll rt (snd <$> lookups);
             let permissions := arrayFromSetOfValues (flat permissionSets) in
             mret {| RBACContext.principal := principal;
                     RBACContext.roles := roles;
                     RBACContext.permissions := permissions;
                     RBACContext.scope := None |}
         | _ => throw (ErrorObj "roles.map is not a function")
         end
     | _, _ =>
         mret {| RBACContext.principal := principal;
                 RBACContext.roles := [];
                 RBACContext.permissions := [];
                 RBACContext.scope := None |}
     end)
    (λ error, throw (ErrorObj ("RBAC resolution failed: " +:+ describe error))).

End GovernanceCore.

(* ====================================================================== *)
(** ** The request handlers ([src/handlers/index.ts]) *)
(* ====================================================================== *)

Module handlers.

(** The interface the handlers depend on. *)
Record GovernanceCore : Type := {
  evaluateGovernance : GovernanceRequest.t → M GovernanceDecision.t;
  resolveRBAC : string → M RBACContext.t;
  getFinOpsSummary : string → M FinOpsSummary.t;
  emitAuditSignal : AuditSignal.t → M unit;
}.

(** [v.trim() === ''], reached only when [typeof v === 'string']. *)
Definition trimsToEmpty (v : JsVal) : bool :=
  match v with
  | JStr s => String.eqb (trim s) ""
  | _ => false
  end.

(** [!v || typeof v !== 'string' || v.trim() === '']. *)
Definition notNonEmptyString (v : JsVal) : bool :=
  negb (truthy v) || negb (String.eqb (typeof v) "string") || trimsToEmpty v.

(** [v !== undefined && (typeof v !== 'object' || v === null || Array.isArray(v))]. *)
Definition notPlainObjectIfProvided (v : JsVal) : bool :=
  negb (match v with JUndefined => true | _ => false end)
  && (negb (String.eqb (typeof v) "object")
      || (match v with JNull => true | _ => false end)
      || isArray v).

(** The view of a validated value at the asserted type. *)
Definition asString (v : JsVal) : string :=
  match v with JStr s => s | _ => "" end.

Definition asRecord (v : JsVal) : option (gmap string JsVal) :=
  match v with JObj props => Some props | _ => None end.

Definition asGovernanceRequest (request : JsVal) : GovernanceRequest.t :=
  {| GovernanceRequest.requestId := asString (getProp request "requestId");
     GovernanceRequest.resourceId := asString (getProp request "resourceId");
     GovernanceRequest.action := asString (getProp request "action");
     GovernanceRequest.principal := asString (getProp request "principal");
     GovernanceRequest.context := asRecord (getProp request "context") |}.

Definition asAuditSignal (signal : JsVal) : AuditSignal.t :=
  {| AuditSignal.timestamp := asString (getProp signal "timestamp");
     AuditSignal.action := asString (getProp signal "action");
     AuditSignal.principal := asString (getProp signal "principal");
     AuditSignal.resource := asString (getProp signal "resource");
     AuditSignal.outcome := asString (getProp signal "outcome");
     AuditSignal.metadata := asRecord (getProp signal "metadata");
     AuditSignal.extra :=
       match signal with
       | JObj props =>
           delete "timestamp" (delete "action" (delete "principal"
             (delete "resource" (delete "outcome" (delete "metadata" props)))))
       | _ => ∅
       end |}.

(** [validateGovernanceRequest(request): asserts request is GovernanceRequest]. *)
Definition validateGovernanceRequest (request : JsVal) : Completion GovernanceRequest.t :=
  if negb (truthy request) || negb (String.eqb (typeof request) "object") then
    Throw (ErrorObj "Invalid request: must be an object")
  else if notNonEmptyString (getProp request "requestId") then
    Throw (ErrorObj "Invalid request: requestId must be a non-empty string")
  else if notNonEmptyString (getProp request "resourceId") then
    Throw (ErrorObj "Invalid request: resourceId must be a non-empty string")
  else if notNonEmptyString (getProp request "action") then
    Throw (ErrorObj "Invalid request: action must be a non-empty string")
  else if notNonEmptyString (getProp request "principal") then
    Throw (ErrorObj "Invalid request: principal must be a non-empty string")
  else if notPlainObjectIfProvided (getProp request "context") then
    Throw (ErrorObj "Invalid request: context must be an object if provided")
  else Return (asGovernanceRequest request).

(** [validatePrincipal(principal): asserts principal is string]. *)
Definition validatePrincipal (principal : JsVal) : Completion string :=
  if negb (String.eqb (typeof principal) "string") || trimsToEmpty principal then
    Throw (ErrorObj "Invalid principal: must be a non-empty string")
  else Return (asString principal).

(** [validateResourceId(resourceId): asserts resourceId is string]. *)
Definition validateResourceId (resourceId : JsVal) : Completion string :=
  if negb (String.eqb (typeof resourceId) "string") || trimsToEmpty resourceId then
    Throw (ErrorObj "Invalid resourceId: must be a non-empty string")
  else Return (asString resourceId).

(** [validateAuditSignal(signal): asserts signal is AuditSignal]. *)
Definition validateAuditSignal (signal : JsVal) : Completion AuditSignal.t :=
  if negb (truthy signal) || negb (String.eqb (typeof signal) "object") then
    Throw (ErrorObj "Invalid audit signal: must be an object")
  else if notNonEmptyString (getProp signal "timestamp") then
    Throw (ErrorObj "Invalid audit signal: timestamp must be a non-empty string")
  else if notNonEmptyString (getProp signal "action") then
    Throw (ErrorObj "Invalid audit signal: action must be a non-empty string")
  else if notNonEmptyString (getProp signal "principal") then
    Throw (ErrorObj "Invalid audit signal: principal must be a non-empty string")
  else if notNonEmptyString (getProp signal "resource") then
    Throw (ErrorObj "Invalid audit signal: resource must be a non-empty string")
  else if notNonEmptyString (getProp signal "outcome") then
    Throw (ErrorObj "Invalid audit signal: outcome must be a non-empty string")
  else if notPlainObjectIfProvided (getProp signal "metadata") then
    Throw (ErrorObj "Invalid audit signal: metadata must be an object if provided")
  else Return (asAuditSignal signal).

Definition handleGovernanceRequest (request : JsVal) (core : GovernanceCore)
  : M GovernanceDecision.t :=
  request' ← complete (validateGovernanceRequest request);
  evaluateGovernance core request'.

Definition handleRBACResolution (principal : JsVal) (core : GovernanceCore)
  : M RBACContext.t :=
  principal' ← complete (validatePrincipal principal);
  resolveRBAC core principal'.

Definition handleFinOpsQuery (resourceId : JsVal) (core : GovernanceCore)
  : M FinOpsSummary.t :=
  resourceId' ← complete (validateResourceId resourceId);
  getFinOpsSummary core resourceId'.

Definition handleAuditEmission (signal : JsVal) (core : GovernanceCore) : M unit :=
  signal' ← complete (validateAuditSignal signal);
  emitAuditSignal core signal'.

End handlers.

(** [createGovernanceCore(adapters)]: the class seen through the interface
    of the handlers. *)
Definition createGovernanceCore (rt : Runtime) (adapters : AdapterCollection)
  : handlers.GovernanceCore :=
  {| handlers.evaluateGovernance := evaluateGovernance rt adapters;
     handlers.resolveRBAC := resolveRBAC rt adapters;
     handlers.getFinOpsSummary := getFinOpsSummary rt adapters;
     handlers.emitAuditSignal := emitAuditSignal rt adapters |}.

(* ====================================================================== *)
(** ** The collaborators of the test suite ([tests/governance.test.ts]) *)
(* ====================================================================== *)

Module mocks.

Definition ok {T : Type} (payload : option T) : Settled (AdapterResponse.t T) :=
  Fulfilled {| AdapterResponse.success := true;
               AdapterResponse.data := payload;
               AdapterResponse.error := None |}.

Definition failed {T : Type} (message : option string) : Settled (AdapterResponse.t T) :=
  Fulfilled {| AdapterResponse.success := false;
               AdapterResponse.data := None;
               AdapterResponse.error := message |}.

Definition MockPolicyEngineAdapter : IPolicyEngineAdapter :=
  {| evaluatePolicy request :=
       let action := PolicyEvaluationRequest.action request in
       ok (Some
         {| adapters.PolicyEvaluationResult.allowed :=
              String.eqb action "read" || String.eqb action "write";
            adapters.PolicyEvaluationResult.reasons :=
              if String.eqb action "read" then ["Read access granted"]
              else ["Write access granted"];
            adapters.PolicyEvaluationResult.appliedPolicies := ["policy-1"; "policy-2"] |}) |}.

Definition DenyPolicyEngineAdapter : IPolicyEngineAdapter :=
  {| evaluatePolicy _ :=
       ok (Some
         {| adapters.PolicyEvaluationResult.allowed := false;
            adapters.PolicyEvaluationResult.reasons :=
              ["Delete action denied by security policy"];
            adapters.PolicyEvaluationResult.appliedPolicies := ["security-policy-1"] |}) |}.

(** A cost collaborator answering [totalCost] and [projectedCost], with
    confidence 0.85. *)
Definition CostOpsAdapter (totalCost projectedCost : float) : ICostOpsAdapter :=
  {| getCostMetrics _ :=
       ok (Some {| CostMetrics.totalCost := totalCost; CostMetrics.currency := "USD" |});
     getForecast _ :=
       ok (Some {| CostForecast.projectedCost := projectedCost;
                   CostForecast.confidence := 0x1.b333333333333p-1%float |}) |}.

Definition MockCostOpsAdapter : ICostOpsAdapter := CostOpsAdapter 100 110.
Definition WarningCostOpsAdapter : ICostOpsAdapter := CostOpsAdapter 100 125.

Definition MockAnalyticsHubAdapter : IAnalyticsHubAdapter :=
  {| track _ := ok None |}.

Definition rolesPrefix : string := "rbac.roles.".
Definition permissionsPrefix : string := "rbac.permissions.".

Definition MockConfigManagerAdapter : IConfigManagerAdapter :=
  {| getConfig key :=
       if String.prefix rolesPrefix key
          && String.eqb (String.substring (String.length rolesPrefix)
                           (String.length key) key) "user-123"
       then ok (Some {| ConfigValue.key := key;
                        ConfigValue.value :=
                          JObj {["roles" := JArr [JStr "admin"; JStr "developer"]]};
                        ConfigValue.version := "v1" |})
       else if String.prefix permissionsPrefix key then
         let role := String.substring (String.length permissionsPrefix)
                       (String.length key) key in
         let permissions :=
           if String.eqb role "admin" then ["read"; "write"; "delete"]
           else if String.eqb role "developer" then ["read"; "write"]
           else [] in
         ok (Some {| ConfigValue.key := key;
                     ConfigValue.value :=
                       JObj {["permissions" := JArr (JStr <$> permissions)]};
                     ConfigValue.version := "v1" |})
       else failed (Some "Config not found") |}.

Definition MockSchemaRegistryAdapter : ISchemaRegistryAdapter :=
  {| validate _ _ :=
       ok (Some {| ValidationResult.valid := true; ValidationResult.errors := [] |}) |}.

Definition MockDashboardAdapter : IGovernanceDashboardAdapter :=
  {| publishEvent _ := ok None |}.

Definition mockAdapters : AdapterCollection :=
  {| costOps := MockCostOpsAdapter;
     dashboard := MockDashboardAdapter;
     policyEngine := MockPolicyEngineAdapter;
     analyticsHub := MockAnalyticsHubAdapter;
     configManager := MockConfigManagerAdapter;
     schemaRegistry := MockSchemaRegistryAdapter |}.

(** A clock that advances by one millisecond per reading; dates are kept
    as decimal time values. *)
Definition mockRuntime : Runtime :=
  {| clock n := (1730000000000 + Z.of_nat n)%Z;
     toISOString := numberToString;
     parseDate _ := None;
     formatNumber _ := "0";
     rejectsFirst _ _ := false |}.

Definition world0 : World := {| calls := []; ticks := 0 |}.

Definition request123 : GovernanceRequest.t :=
  {| GovernanceRequest.requestId := "req-123";
     GovernanceRequest.resourceId := "resource-abc";
     GovernanceRequest.action := "read";
     GovernanceRequest.principal := "user-123";
     GovernanceRequest.context := Some (<["source" := JStr "test"]> ∅) |}.

Definition request789 : GovernanceRequest.t :=
  {| GovernanceRequest.requestId := "req-789";
     GovernanceRequest.resourceId := "resource-sensitive";
     GovernanceRequest.action := "delete";
     GovernanceRequest.principal := "user-789";
     GovernanceRequest.context := None |}.

(** What the policy mock answers to a read. *)
Definition readVerdict : adapters.PolicyEvaluationResult.t :=
  {| adapters.PolicyEvaluationResult.allowed := true;
     adapters.PolicyEvaluationResult.reasons := ["Read access granted"];
     adapters.PolicyEvaluationResult.appliedPolicies := ["policy-1"; "policy-2"] |}.

Definition policyDownResponse : AdapterResponse.t adapters.PolicyEvaluationResult.t :=
  {| AdapterResponse.success := false;
     AdapterResponse.data := None;
     AdapterResponse.error := Some "engine unavailable" |}.

Definition invalidSignalResponse : AdapterResponse.t ValidationResult.t :=
  {| AdapterResponse.success := true;
     AdapterResponse.data :=
       Some {| ValidationResult.valid := false;
               ValidationResult.errors :=
                 [ {| ValidationError.path := "outcome";
                      ValidationError.message := "unknown outcome" |};
                   {| ValidationError.path := "timestamp";
                      ValidationError.message := "not a date" |} ] |};
     AdapterResponse.error := None |}.


Definition notFoundResponse : AdapterResponse.t ConfigValue.t :=
  {| AdapterResponse.success := false;
     AdapterResponse.data := None;
     AdapterResponse.error := Some "Config not found" |}.

(** What the first test expects of [request123]. *)
Definition decision123 : GovernanceDecision.t :=
  {| GovernanceDecision.requestId := "req-123";
     GovernanceDecision.allowed := true;
     GovernanceDecision.policyResults :=
       {| PolicyEvaluationResult.allowed := true;
          PolicyEvaluationResult.policies := ["policy-1"; "policy-2"];
          PolicyEvaluationResult.reasons := ["Read access granted"] |};
     GovernanceDecision.costImpact :=
       Some {| FinOpsSummary.resourceId := "resource-abc";
               FinOpsSummary.currentCost := 100;
               FinOpsSummary.forecast := 110;
               FinOpsSummary.budgetStatus := "within" |};
     GovernanceDecision.auditId := "audit-req-123-1730000000002" |}.

(** Variations of the collaborators, one failing part each. *)

Definition withCostOps (costOps' : ICostOpsAdapter) : AdapterCollection :=
  {| costOps := costOps';
     dashboard := MockDashboardAdapter;
     policyEngine := MockPolicyEngineAdapter;
     analyticsHub := MockAnalyticsHubAdapter;
     configManager := MockConfigManagerAdapter;
     schemaRegistry := MockSchemaRegistryAdapter |}.

Definition metricsDownAdapters : AdapterCollection :=
  withCostOps {| getCostMetrics _ := failed (Some "cost service down");
                 getForecast := getForecast MockCostOpsAdapter |}.

Definition forecastDownAdapters : AdapterCollection :=
  withCostOps {| getCostMetrics := getCostMetrics MockCostOpsAdapter;
                 getForecast _ := failed None |}.

Definition policyDownAdapters : AdapterCollection :=
  {| costOps := MockCostOpsAdapter;
     dashboard := MockDashboardAdapter;
     policyEngine := {| evaluatePolicy _ := failed (Some "engine unavailable") |};
     analyticsHub := MockAnalyticsHubAdapter;
     configManager := MockConfigManagerAdapter;
     schemaRegistry := MockSchemaRegistryAdapter |}.

Definition withSchemaRegistry (schemaRegistry' : ISchemaRegistryAdapter)
  : AdapterCollection :=
  {| costOps := MockCostOpsAdapter;
     dashboard := MockDashboardAdapter;
     policyEngine := MockPolicyEngineAdapter;
     analyticsHub := MockAnalyticsHubAdapter;
     configManager := MockConfigManagerAdapter;
     schemaRegistry := schemaRegistry' |}.

Definition schemaDownAdapters : AdapterCollection :=
  withSchemaRegistry {| validate _ _ := failed (Some "registry unavailable") |}.

Definition invalidSignalErrors : list ValidationError.t :=
  [ {| ValidationError.path := "outcome"; ValidationError.message := "unknown outcome" |};
    {| ValidationError.path := "timestamp"; ValidationError.message := "not a date" |} ].

Definition invalidSignalAdapters : AdapterCollection :=
  withSchemaRegistry
    {| validate _ _ :=
         ok (Some {| ValidationResult.valid := false;
                     ValidationResult.errors := invalidSignalErrors |}) |}.

(** The analytics hub answers [success: false]. *)
Definition unavailableAnalyticsAdapters : AdapterCollection :=
  {| costOps := MockCostOpsAdapter;
     dashboard := MockDashboardAdapter;
     policyEngine := MockPolicyEngineAdapter;
     analyticsHub := {| track _ := failed (Some "hub unavailable") |};
     configManager := MockConfigManagerAdapter;
     schemaRegistry := MockSchemaRegistryAdapter |}.


Definition signal0 : AuditSignal.t :=
  {| AuditSignal.timestamp := "2025-01-01T00:00:00.000Z";
     AuditSignal.action := "delete";
     AuditSignal.principal := "user-789";
     AuditSignal.resource := "resource-sensitive";
     AuditSignal.outcome := "denied";
     AuditSignal.metadata := None;
     AuditSignal.extra := ∅ |}.

(** A request whose action is two spaces and a tab. *)
Definition blankActionRequest : gmap string JsVal :=
  <["requestId" := JStr "req-1"]>
  (<["resourceId" := JStr "res"]>
  (<["action" := JStr (String " " (String " " (String "009" EmptyString)))]>
  (<["principal" := JStr "user"]> ∅))).

(** A signal whose outcome is a line feed. *)
Definition blankOutcomeSignal : gmap string JsVal :=
  <["timestamp" := JStr "2025-01-01T00:00:00.000Z"]>
  (<["action" := JStr "read"]>
  (<["principal" := JStr "user"]>
  (<["resource" := JStr "res"]>
  (<["outcome" := JStr (String "010" EmptyString)]> ∅)))).

End mocks.

(* ====================================================================== *)
(** ** The services layer ([src/services/index.ts]) *)
(* ====================================================================== *)

(** The services compose the same collaborators, but they hand a
    [GovernanceEvent] to the schema collaborator and they query the
    analytics hub; they report failure in the envelope they return and have
    no [try]/[catch], so a rejected promise rejects theirs. *)
Module services.

Module TimeRange.
(** [finish] is the property [end]. *)
Record t : Type := { start : Z; finish : Z }.
End TimeRange.

Module AnalyticsQuery.
Record t : Type := {
  metric : string;
  dimensions : list string;
  filters : gmap string JsVal;
  timeRange : TimeRange.t;
}.
End AnalyticsQuery.

Module GovernanceMetrics.
Record t : Type := {
  costMetrics : CostMetrics.t;
  analyticsData : gmap string JsVal;
}.
End GovernanceMetrics.

(** The operations of the adapter collection that the services consume. *)
Record AdapterCollection : Type := {
  policyEngine : IPolicyEngineAdapter;
  costOps : ICostOpsAdapter;
  dashboard : IGovernanceDashboardAdapter;
  validate : string → GovernanceEvent.t → Settled (AdapterResponse.t ValidationResult.t);
  query : AnalyticsQuery.t → Settled (AdapterResponse.t (gmap string JsVal));
}.

Inductive Effect : Type :=
| EvaluatePolicy (request : PolicyEvaluationRequest.t)
| Validate (schemaId : string) (data : GovernanceEvent.t)
| PublishEvent (event : GovernanceEvent.t)
| GetCostMetrics (filters : CostFilters.t)
| Query (query : AnalyticsQuery.t).

Record World : Type := {
  calls : list Effect;
  ticks : nat;
}.

(** A service method: it returns an envelope, or its promise is rejected
    ([Throw]). *)
Definition M (A : Type) : Type := World → Completion A * World.

Definition ret {A : Type} (a : A) : M A := λ w, (Return a, w).

(** [await adapter.method(request)], then the rest of the method. *)
Definition call {T A : Type} (ev : Effect) (p : Settled T) (rest : T → M A) : M A := λ w,
  let w' := {| calls := calls w ++ [ev]; ticks := ticks w |} in
  match p with
  | Fulfilled r => rest r w'
  | Rejected e | Threw e => (Throw e, w')
  end.

(** [Date.now()] or [new Date()], then the rest of the method. *)
Definition now {A : Type} (rt : Runtime) (rest : Z → M A) : M A := λ w,
  rest (clock rt (ticks w)) {| calls := calls w; ticks := S (ticks w) |}.

(** A template literal's rendering of an optional string. *)
Definition render (s : option string) : string := default "undefined" s.

(** [PolicyCoordinationService.evaluateRequest(request, adapters)]. *)
Definition evaluateRequest (request : PolicyEvaluationRequest.t)
    (adapters : AdapterCollection)
  : M (AdapterResponse.t adapters.PolicyEvaluationResult.t) :=
  call (EvaluatePolicy request) (evaluatePolicy (policyEngine adapters) request) ret.

(** [AuditAggregationService.recordDecision(decision, adapters)].  The
    optional chain [validation.data?.errors.map(...).join(', ')] is
    [undefined] as a whole when there is no payload. *)
Definition recordDecision (decision : GovernanceEvent.t) (adapters : AdapterCollection)
  : M (AdapterResponse.t unit) :=
  call (Validate "governance-event" decision)
       (validate adapters "governance-event" decision)
       (λ validation,
          if negb (AdapterResponse.success validation)
             || negb (from_option ValidationResult.valid false
                        (AdapterResponse.data validation))
          then
            ret {| AdapterResponse.success := false;
                   AdapterResponse.data := None;
                   AdapterResponse.error :=
                     Some ("Schema validation failed: "
                           +:+ render ((λ result,
                                          join ", " (ValidationError.message
                                                     <$> ValidationResult.errors result))
                                       <$> AdapterResponse.data validation)) |}
          else
            call (PublishEvent decision) (publishEvent (dashboard adapters) decision) ret).

(** [FinOpsOrchestrationService.getGovernanceMetrics(resourceId, adapters)]. *)
Definition getGovernanceMetrics (rt : Runtime) (resourceId : string)
    (adapters : AdapterCollection) : M (AdapterResponse.t GovernanceMetrics.t) :=
  now rt (λ costStart,
  now rt (λ costEnd,
  let filters :=
    {| CostFilters.startDate := costStart - 30 * 24 * 60 * 60 * 1000;
       CostFilters.endDate := costEnd;
       CostFilters.services := [resourceId] |} in
  call (GetCostMetrics filters) (getCostMetrics (costOps adapters) filters)
    (λ costResponse,
       match AdapterResponse.success costResponse, AdapterResponse.data costResponse with
       | true, Some costMetrics =>
           now rt (λ rangeStart,
           now rt (λ rangeEnd,
           let analyticsQuery :=
             {| AnalyticsQuery.metric := "resource-usage";
                AnalyticsQuery.dimensions := ["resourceId"];
                AnalyticsQuery.filters := <["resourceId" := JStr resourceId]> ∅;
                AnalyticsQuery.timeRange :=
                  {| TimeRange.start := rangeStart - 30 * 24 * 60 * 60 * 1000;
                     TimeRange.finish := rangeEnd |} |} in
           call (Query analyticsQuery) (query adapters analyticsQuery)
             (λ analyticsResponse,
                match AdapterResponse.success analyticsResponse,
                      AdapterResponse.data analyticsResponse with
                | true, Some analyticsData =>
                    ret {| AdapterResponse.success := true;
                           AdapterResponse.data :=
                             Some {| GovernanceMetrics.costMetrics := costMetrics;
                                     GovernanceMetrics.analyticsData := analyticsData |};
                           AdapterResponse.error := None |}
                | _, _ =>
                    ret {| AdapterResponse.success := false;
                           AdapterResponse.data := None;
                           AdapterResponse.error :=
                             Some ("Failed to fetch analytics: "
                                   +:+ render (AdapterResponse.error analyticsResponse)) |}
                end)))
       | _, _ =>
           ret {| AdapterResponse.success := false;
                  AdapterResponse.data := None;
                  AdapterResponse.error :=
                    Some ("Failed to fetch cost metrics: "
                          +:+ render (AdapterResponse.error costResponse)) |}
       end))).

(** Collaborators for the services, after those of the test suite. *)
Definition mockServiceAdapters : AdapterCollection :=
  {| policyEngine := mocks.MockPolicyEngineAdapter;
     costOps := mocks.MockCostOpsAdapter;
     dashboard := mocks.MockDashboardAdapter;
     validate _ _ :=
       mocks.ok (Some {| ValidationResult.valid := true; ValidationResult.errors := [] |});
     query _ := mocks.ok (Some (<["requests" := JStr "12"]> ∅)) |}.

(** The schema collaborator fails without a payload, and so does the cost
    collaborator, without a message; the dashboard is unavailable. *)
Definition downServiceAdapters : AdapterCollection :=
  {| policyEngine := mocks.MockPolicyEngineAdapter;
     costOps := {| getCostMetrics _ := mocks.failed None;
                   getForecast := getForecast mocks.MockCostOpsAdapter |};
     dashboard := {| publishEvent _ := mocks.failed (Some "dashboard unavailable") |};
     validate _ _ := mocks.failed (Some "registry unavailable");
     query _ := mocks.failed (Some "hub unavailable") |}.

(** Valid events, but the dashboard reports failure. *)
Definition unavailableDashboardAdapters : AdapterCollection :=
  {| policyEngine := mocks.MockPolicyEngineAdapter;
     costOps := mocks.MockCostOpsAdapter;
     dashboard := {| publishEvent _ := mocks.failed (Some "dashboard unavailable") |};
     validate := validate mockServiceAdapters;
     query _ := mocks.failed (Some "hub unavailable") |}.

Definition world0 : World := {| calls := []; ticks := 0 |}.

Definition event0 : GovernanceEvent.t :=
  {| GovernanceEvent.eventType := "governance.decision";
     GovernanceEvent.severity := info;
     GovernanceEvent.timestamp := Some 1730000000000%Z;
     GovernanceEvent.details := mocks.signal0 |}.

End services.

(* ====================================================================== *)
(** ** The HTTP server ([src/server.ts]) *)
(* ====================================================================== *)

Module server.

Record IncomingMessage : Type := {
  method : option string;
  url : option string;
}.

(** What the listener has written when it returns. *)
Record ServerResponse : Type := {
  headers : list (string * string);
  statusCode : Z;
  body : string;
}.

Section listener.

(** [JSON.stringify] and [process.env]. *)
Context (stringify : JsVal → string) (env : gmap string string).

(** [process.env.PORT || 8080]. *)
Definition PORT : JsVal :=
  match env !! "PORT" with
  | Some port => if String.eqb port "" then JNum 8080 else JStr port
  | None => JNum 8080
  end.

(** The callback given to [http.createServer]. *)
Definition requestListener (req : IncomingMessage) : ServerResponse :=
  let contentType := [("Content-Type", "application/json")] in
  if bool_decide (method req = Some "GET") && bool_decide (url req = Some "/health") then
    {| headers := contentType;
       statusCode := 200;
       body := stringify (JObj (
         <["status" := JStr "healthy"]>
         (<["service" := JStr "governance-core"]>
         (<["version" := JStr (orElse (env !! "npm_package_version") "unknown")]> ∅)))) |}
  else if bool_decide (method req = Some "GET") && bool_decide (url req = Some "/") then
    {| headers := contentType;
       statusCode := 200;
       body := stringify (JObj (
         <["service" := JStr "llm-governance-core"]>
         (<["version" := JStr "1.0.0"]> ∅))) |}
  else
    {| headers := contentType;
       statusCode := 404;
       body := stringify (JObj (<["error" := JStr "Not found"]> ∅)) |}.

End listener.

End server.

(* ====================================================================== *)
(** ** The command line ([cli.ts]): how [main] dispatches *)
(* ====================================================================== *)

Module cli.

(** [args.indexOf(x)]: the first index of [x], or -1. *)
Fixpoint indexOfFrom (i : Z) (x : string) (args : list string) : Z :=
  match args with
  | [] => -1
  | y :: args' => if String.eqb y x then i else indexOfFrom (i + 1) x args'
  end.

Definition indexOf (x : string) (args : list string) : Z := indexOfFrom 0 x args.

(** [args[i]]: [None] is [undefined]. *)
Definition item (args : list string) (i : Z) : option string :=
  if (i <? 0)%Z then None else args !! Z.to_nat i.

(** The handler calls [main] can make. *)
Inductive Handler : Type :=
| handleEvaluate (requestJson : string)
| handleRbac (principalId : string)
| handleFinOps (resourceId : string)
| handleAudit (signalJson : string)
| handleHealth.

(** What [main] does with its arguments: it awaits a handler, or throws
    the error of a missing argument (reported, exit code 1), or prints the
    usage (exit code 1). *)
Inductive Step : Type :=
| Run (handler : Handler)
| MissingArgument (message : string)
| Usage.

(** One [case] of the [switch]:
    [const idx = args.indexOf(flag);
     if (idx === -1 || !args[idx + 1]) throw new Error(message);
     await handler(args[idx + 1])]. *)
Definition flagged (args : list string) (flag message : string)
    (handler : string → Handler) : Step :=
  let idx := indexOf flag args in
  if (idx =? -1)%Z || negb (from_option (λ value, negb (String.eqb value "")) false
                              (item args (idx + 1)))
  then MissingArgument message
  else Run (handler (default "" (item args (idx + 1)))).

(** [main()], with [args = process.argv.slice(2)]. *)
Definition main (args : list string) : Step :=
  match item args 0 with
  | Some command =>
      if String.eqb command "evaluate" then
        flagged args "--request" "Missing --request <json> argument" handleEvaluate
      else if String.eqb command "rbac" then
        flagged args "--principal" "Missing --principal <id> argument" handleRbac
      else if String.eqb command "finops" then
        flagged args "--resource" "Missing --resource <id> argument" handleFinOps
      else if String.eqb command "audit" then
        flagged args "--signal" "Missing --signal <json> argument" handleAudit
      else if String.eqb command "health" then Run handleHealth
      else Usage
  | None => Usage
  end.

(** The commands that take a flagged value. *)
Definition flaggedCommands : list (string * string * (string → Handler)) :=
  [ ("evaluate", "--request", handleEvaluate);
    ("rbac", "--principal", handleRbac);
    ("finops", "--resource", handleFinOps);
    ("audit", "--signal", handleAudit) ].

End cli.

(* ====================================================================== *)
(** ** Further collaborators and inputs for the examples *)
(* ====================================================================== *)

Module scenarios.

(** The policy engine of the denial test. *)
Definition denyAdapters : AdapterCollection :=
  {| costOps := mocks.MockCostOpsAdapter;
     dashboard := mocks.MockDashboardAdapter;
     policyEngine := mocks.DenyPolicyEngineAdapter;
     analyticsHub := mocks.MockAnalyticsHubAdapter;
     configManager := mocks.MockConfigManagerAdapter;
     schemaRegistry := mocks.MockSchemaRegistryAdapter |}.

Definition decision789 : GovernanceDecision.t :=
  {| GovernanceDecision.requestId := "req-789";
     GovernanceDecision.allowed := false;
     GovernanceDecision.policyResults :=
       {| PolicyEvaluationResult.allowed := false;
          PolicyEvaluationResult.policies := ["security-policy-1"];
          PolicyEvaluationResult.reasons := ["Delete action denied by security policy"] |};
     GovernanceDecision.costImpact :=
       Some {| FinOpsSummary.resourceId := "resource-sensitive";
               FinOpsSummary.currentCost := 100;
               FinOpsSummary.forecast := 110;
               FinOpsSummary.budgetStatus := "within" |};
     GovernanceDecision.auditId := "audit-req-789-1730000000002" |}.

(** The promise of the analytics call is rejected. *)
Definition rejectingAnalyticsAdapters : AdapterCollection :=
  {| costOps := mocks.MockCostOpsAdapter;
     dashboard := mocks.MockDashboardAdapter;
     policyEngine := mocks.MockPolicyEngineAdapter;
     analyticsHub := {| track _ := Rejected (ErrorObj "hub timeout") |};
     configManager := mocks.MockConfigManagerAdapter;
     schemaRegistry := mocks.MockSchemaRegistryAdapter |}.

(** Both cost queries report failure, each with its own message. *)
Definition costDownAdapters : AdapterCollection :=
  mocks.withCostOps {| getCostMetrics _ := mocks.failed (Some "metrics down");
                       getForecast _ := mocks.failed (Some "forecast down") |}.

Definition metricsDownResponse : AdapterResponse.t CostMetrics.t :=
  {| AdapterResponse.success := false;
     AdapterResponse.data := None;
     AdapterResponse.error := Some "metrics down" |}.

Definition forecastDownResponse : AdapterResponse.t CostForecast.t :=
  {| AdapterResponse.success := false;
     AdapterResponse.data := None;
     AdapterResponse.error := Some "forecast down" |}.

(** [getCostMetrics] throws instead of returning a promise. *)
Definition throwingMetricsAdapters : AdapterCollection :=
  mocks.withCostOps {| getCostMetrics _ := Threw (ErrorObj "not connected");
                       getForecast := getForecast mocks.MockCostOpsAdapter |}.

(** The promises of both cost queries are rejected. *)
Definition rejectingCostAdapters : AdapterCollection :=
  mocks.withCostOps {| getCostMetrics _ := Rejected (ErrorObj "metrics timeout");
                       getForecast _ := Rejected (ErrorObj "forecast timeout") |}.

(** A runtime in which, of two rejections, the later promise's comes
    first. *)
Definition laterFirstRuntime : Runtime :=
  {| clock := clock mocks.mockRuntime;
     toISOString := toISOString mocks.mockRuntime;
     parseDate := parseDate mocks.mockRuntime;
     formatNumber := formatNumber mocks.mockRuntime;
     rejectsFirst _ _ := true |}.

(** A configuration store that answers every key with the same value. *)
Definition constantConfigAdapters (value : JsVal) : AdapterCollection :=
  {| costOps := mocks.MockCostOpsAdapter;
     dashboard := mocks.MockDashboardAdapter;
     policyEngine := mocks.MockPolicyEngineAdapter;
     analyticsHub := mocks.MockAnalyticsHubAdapter;
     configManager :=
       {| getConfig key :=
            mocks.ok (Some {| ConfigValue.key := key;
                              ConfigValue.value := value;
                              ConfigValue.version := "v1" |}) |};
     schemaRegistry := mocks.MockSchemaRegistryAdapter |}.

(** A signal with an outcome in capitals. *)
Definition shoutedSignal : AuditSignal.t :=
  {| AuditSignal.timestamp := "2025-01-01T00:00:00.000Z";
     AuditSignal.action := "delete";
     AuditSignal.principal := "user-789";
     AuditSignal.resource := "resource-sensitive";
     AuditSignal.outcome := "DENIED";
     AuditSignal.metadata := None;
     AuditSignal.extra := ∅ |}.

(** A request in order but for its context, which is an array. *)
Definition arrayContextRequest : gmap string JsVal :=
  <["requestId" := JStr "req-1"]>
  (<["resourceId" := JStr "res"]>
  (<["action" := JStr "read"]>
  (<["principal" := JStr "user"]>
  (<["context" := JArr []]> ∅)))).



End scenarios.

(* ====================================================================== *)
(** ** Specification-side definitions *)
(* ====================================================================== *)

(** The world after one more effect has been logged. *)
Definition logged (ev : Effect) (w : World) : World :=
  {| calls := calls w ++ [ev]; ticks := ticks w |}.

(** A collaborator call whose envelope reports failure, or carries no
    payload. *)
Definition reportsFailure {T : Type} (response : AdapterResponse.t T) : Prop :=
  AdapterResponse.success response = false ∨ AdapterResponse.data response = None.

(** A collaborator call that gives the orchestrator nothing to work with:
    it throws, its promise is rejected, or its envelope reports failure or
    is empty. *)
Definition unusable {T : Type} (p : Settled (AdapterResponse.t T)) : Prop :=
  match p with
  | Fulfilled response => reportsFailure response
  | Rejected _ | Threw _ => True
  end.

(** A decimal numeral: an optional minus sign, then one digit or more. *)
Definition isDigit (c : ascii) : bool :=
  let n := nat_of_ascii c in (48 <=? n)%nat && (n <=? 57)%nat.

Fixpoint allDigits (s : string) : bool :=
  match s with
  | EmptyString => true
  | String c s' => isDigit c && allDigits s'
  end.

Definition isNumeral (s : string) : bool :=
  match s with
  | EmptyString => false
  | String "-" (String c s') => isDigit c && allDigits s'
  | String c s' => isDigit c && allDigits s'
  end.

(** The budget rule in the words of the specification: the first matching
    line wins. *)
Definition budgetStatusRule (currentCost forecast : float) : string :=
  if gt forecast (currentCost * 1.5)%float then "exceeded"
  else if gt forecast (currentCost * 0x1.3333333333333p+0)%float then "warning"
  else "within".




(** Audit emission goes through: the schema collaborator answers that the
    signal is valid and the promise of the dashboard call is fulfilled. *)
Definition auditEmissionSucceeds (rt : Runtime) (adapters : AdapterCollection)
    (signal : AuditSignal.t) : Prop :=
  ∃ response result published,
    validate (schemaRegistry adapters) "audit.signal.v1" signal = Fulfilled response
    ∧ AdapterResponse.success response = true
    ∧ AdapterResponse.data response = Some result
    ∧ ValidationResult.valid result = true
    ∧ publishEvent (dashboard adapters) (governanceEventOf rt signal) = Fulfilled published.

(** The schema collaborator answered that the signal is valid. *)
Definition validationPassed (p : Settled (AdapterResponse.t ValidationResult.t)) : bool :=
  match p with
  | Fulfilled response =>
      AdapterResponse.success response
      && from_option ValidationResult.valid false (AdapterResponse.data response)
  | Rejected _ | Threw _ => false
  end.

(** The required string fields, in the order the validators check them. *)
Definition requestFields : list string :=
  ["requestId"; "resourceId"; "action"; "principal"].

Definition signalFields : list string :=
  ["timestamp"; "action"; "principal"; "resource"; "outcome"].

(** The required fields checked before [field] all hold a string that is
    not blank. *)
Definition earlierFieldsPass (fields : list string) (field : string) (object : JsVal)
  : Prop :=
  ∃ i, fields !! i = Some field
       ∧ ∀ g, g ∈ take i fields → handlers.notNonEmptyString (getProp object g) = false.

(** The plain object that carries a typed request across the boundary: one
    property per field, and no [context] property when there is none. *)
Definition ofGovernanceRequest (request : GovernanceRequest.t) : JsVal :=
  JObj (<["requestId" := JStr (GovernanceRequest.requestId request)]>
        (<["resourceId" := JStr (GovernanceRequest.resourceId request)]>
        (<["action" := JStr (GovernanceRequest.action request)]>
        (<["principal" := JStr (GovernanceRequest.principal request)]>
        (match GovernanceRequest.context request with
         | Some context => <["context" := JObj context]> ∅
         | None => ∅
         end))))).

(** A property that holds a string with something other than white space
    in it. *)
Definition holdsText (props : gmap string JsVal) (field text : string) : Prop :=
  props !! field = Some (JStr text) ∧ whitespaceOnly text = false.

(** An optional property that is absent, [undefined], or a plain object. *)
Definition plainObjectIfProvided (props : gmap string JsVal) (field : string) : Prop :=
  props !! field = None ∨ props !! field = Some JUndefined
  ∨ ∃ object, props !! field = Some (JObj object).

(** The two queries of [getGovernanceMetrics] when the clock has been read
    [t] times: each reads the clock once for the start of its window and
    once more for the end. *)
Definition serviceCostFilters (rt : Runtime) (resourceId : string) (t : nat)
  : CostFilters.t :=
  {| CostFilters.startDate := clock rt t - 30 * 24 * 60 * 60 * 1000;
     CostFilters.endDate := clock rt (1 + t);
     CostFilters.services := [resourceId] |}.

Definition serviceAnalyticsQuery (rt : Runtime) (resourceId : string) (t : nat)
  : services.AnalyticsQuery.t :=
  {| services.AnalyticsQuery.metric := "resource-usage";
     services.AnalyticsQuery.dimensions := ["resourceId"];
     services.AnalyticsQuery.filters := <["resourceId" := JStr resourceId]> ∅;
     services.AnalyticsQuery.timeRange :=
       {| services.TimeRange.start := clock rt (2 + t) - 30 * 24 * 60 * 60 * 1000;
          services.TimeRange.finish := clock rt (3 + t) |} |}.

(** An envelope that reports failure with [message] and carries nothing. *)
Definition failureEnvelope {T : Type} (message : string) : AdapterResponse.t T :=
  {| AdapterResponse.success := false;
     AdapterResponse.data := None;
     AdapterResponse.error := Some message |}.

(* ====================================================================== *)
(** ** Strings, numerals and sets *)
(* ====================================================================== *)

Lemma trimStart_whitespaceOnly s : whitespaceOnly s = true → trimStart s = "".
Proof.
  induction s as [|c s IH]; simpl; [done|].
  intros [Hc Hs]%andb_prop. rewrite Hc. auto.
Qed.

Lemma trim_whitespaceOnly s : whitespaceOnly s = true → trim s = "".
Proof. intros H. unfold trim. by rewrite trimStart_whitespaceOnly. Qed.

Lemma trimEnd_empty s : trimEnd s = "" → whitespaceOnly s = true.
Proof.
  induction s as [|c s IH]; simpl; [done|].
  destruct (trimEnd s); [|discriminate].
  destruct (isWhiteSpace c); [auto|discriminate].
Qed.

Lemma trimStart_empty s : trimEnd (trimStart s) = "" → whitespaceOnly s = true.
Proof.
  induction s as [|c s IH]; simpl; [done|].
  destruct (isWhiteSpace c) eqn:Hc; [auto|].
  intros H%trimEnd_empty. simpl in H. by rewrite Hc in H.
Qed.

(** [s.trim() === ''] holds exactly for the strings made of white space. *)
Lemma trim_empty_iff s : trim s = "" ↔ whitespaceOnly s = true.
Proof. split; [apply trimStart_empty | apply trim_whitespaceOnly]. Qed.

Lemma allDigits_string_of_uint d : allDigits (NilEmpty.string_of_uint d) = true.
Proof. induction d; simpl; auto. Qed.

Lemma isNumeral_string_of_uint d : isNumeral (NilZero.string_of_uint d) = true.
Proof.
  destruct d; simpl; try reflexivity; apply allDigits_string_of_uint.
Qed.

Lemma isNumeral_numberToString n : isNumeral (numberToString n) = true.
Proof.
  unfold numberToString.
  destruct (Z.to_int n) as [d|d]; simpl.
  - apply isNumeral_string_of_uint.
  - destruct d; simpl; try reflexivity; apply allDigits_string_of_uint.
Qed.






(* ====================================================================== *)
(** ** Running the orchestrator *)
(* ====================================================================== *)

Ltac unfold_run :=
  unfold tryCatch, call, start, awaitBoth, mbind, M_bind, fmap, M_fmap, mret, M_ret,
    throw, await, emit, dateNow, complete, logged in *.

Ltac case_step :=
  match goal with
  | |- context [getFinOpsSummary ?r ?ad ?i ?w] =>
      destruct (getFinOpsSummary r ad i w) as [[?|?] ?] eqn:?
  | |- context [emitAuditSignal ?r ?ad ?s ?w] =>
      destruct (emitAuditSignal r ad s w) as [[?|?] ?] eqn:?
  | |- context [track ?h ?e] => destruct (track h e) as [?|?|?] eqn:?
  end; simpl.

Section Orchestration.

Context (rt : Runtime) (a : AdapterCollection).

(** Whatever the cost collaborator answers, a cost summary reads the
    clock once and asks for the metrics; it asks for the forecast unless
    [getCostMetrics] threw instead of returning a promise. *)
Lemma getFinOpsSummary_world resourceId w :
  snd (getFinOpsSummary rt a resourceId w)
  = {| calls :=
         calls w
         ++ GetCostMetrics (costFiltersOf resourceId (clock rt (ticks w)))
            :: match getCostMetrics (costOps a)
                       (costFiltersOf resourceId (clock rt (ticks w))) with
               | Threw _ => []
               | _ => [GetForecast (forecastParamsOf resourceId)]
               end;
       ticks := S (ticks w) |}.
Proof.
  unfold getFinOpsSummary. unfold_run. simpl.
  destruct (getCostMetrics _ _) as [metrics|?|?]; simpl; [| |done].
  all: rewrite <- app_assoc; simpl.
  all: destruct (getForecast _ _) as [projection|?|?]; simpl; try done.
  destruct (AdapterResponse.success metrics), (AdapterResponse.data metrics); simpl; try done.
  destruct (AdapterResponse.success projection), (AdapterResponse.data projection); done.
Qed.

(** X6.  A cost summary throws exactly when one of the two queries is
    unusable (the call throws, its promise is rejected, [success: false],
    or no payload), and what it throws carries the prefix of the
    operation. *)
Lemma getFinOpsSummary_throws_iff resourceId w :
  (∃ cause, fst (getFinOpsSummary rt a resourceId w)
            = Throw (ErrorObj ("FinOps summary failed: " +:+ cause)))
  ↔ unusable (getCostMetrics (costOps a) (costFiltersOf resourceId (clock rt (ticks w))))
    ∨ unusable (getForecast (costOps a) (forecastParamsOf resourceId)).
Proof.
  unfold getFinOpsSummary, unusable, reportsFailure. unfold_run. simpl.
  destruct (getCostMetrics _ _) as [metrics|?|?]; simpl; [| |split; eauto].
  2: by destruct (getForecast _ _) as [projection|?|?]; simpl; split; eauto.
  destruct (getForecast _ _) as [projection|?|?]; simpl; [|split; eauto..].
  destruct (AdapterResponse.success metrics), (AdapterResponse.data metrics);
    simpl; try (split; eauto; fail).
  destruct (AdapterResponse.success projection), (AdapterResponse.data projection);
    simpl; try (split; eauto; fail).
  split; [by intros [? ?]|]. by intros [[?|?]|[?|?]].
Qed.

Lemma emitAuditSignal_returns signal w :
  auditEmissionSucceeds rt a signal →
  emitAuditSignal rt a signal w
  = (Return tt, logged (PublishEvent (governanceEventOf rt signal))
                  (logged (Validate "audit.signal.v1" signal) w)).
Proof.
  intros (response & result & published & Hv & Hs & Hd & Hvalid & Hp).
  unfold emitAuditSignal. unfold_run. simpl.
  rewrite Hv. simpl. rewrite Hs, Hd. simpl. rewrite Hvalid. simpl.
  rewrite Hp. done.
Qed.

(** C1.  Whenever [evaluateGovernance] returns a decision, the policy
    collaborator answered with a payload, and both [decision.allowed] and
    [decision.policyResults.allowed] are the verdict of that payload: the
    orchestrator never overrides it. *)
Theorem evaluateGovernance_keeps_policy_verdict request w decision w' :
  evaluateGovernance rt a request w = (Return decision, w') →
  ∃ response payload,
    evaluatePolicy (policyEngine a) (policyRequestOf request) = Fulfilled response
    ∧ AdapterResponse.data response = Some payload
    ∧ PolicyEvaluationResult.allowed (GovernanceDecision.policyResults decision)
      = adapters.PolicyEvaluationResult.allowed payload
    ∧ GovernanceDecision.allowed decision
      = PolicyEvaluationResult.allowed (GovernanceDecision.policyResults decision).
Proof.
  unfold evaluateGovernance. unfold_run. simpl.
  destruct (evaluatePolicy _ _) as [response|e|e]; simpl; [|discriminate..].
  destruct (AdapterResponse.success response),
    (AdapterResponse.data response) as [payload|] eqn:Hdata; simpl; try discriminate.
  repeat case_step; try discriminate.
  all: intros [= <- <-]; exists response, payload; simpl; auto.
Qed.

(** C2.  When the policy collaborator answers, the analytics promise is
    fulfilled and audit emission goes through, a cost summary that throws
    (for whatever reason) is swallowed: [evaluateGovernance] returns a
    decision without [costImpact], and the failure is only logged as a
    warning. *)
Theorem evaluateGovernance_survives_cost_failure
    request w response payload error wc tracked :
  evaluatePolicy (policyEngine a) (policyRequestOf request) = Fulfilled response →
  AdapterResponse.success response = true →
  AdapterResponse.data response = Some payload →
  getFinOpsSummary rt a (GovernanceRequest.resourceId request)
    (logged (EvaluatePolicy (policyRequestOf request)) w) = (Throw error, wc) →
  track (analyticsHub a)
    (analyticsEventOf request (adapters.PolicyEvaluationResult.allowed payload)
       (clock rt (S (ticks w)))) = Fulfilled tracked →
  auditEmissionSucceeds rt a
    (auditSignalOf rt request (policyResultsOf payload) (clock rt (3 + ticks w))) →
  ∃ decision w',
    evaluateGovernance rt a request w = (Return decision, w')
    ∧ GovernanceDecision.costImpact decision = None
    ∧ GovernanceDecision.allowed decision = adapters.PolicyEvaluationResult.allowed payload
    ∧ ConsoleWarn "Failed to retrieve cost data:" error ∈ calls w'.
Proof.
  intros Hpolicy Hsuccess Hdata Hcost Htrack Haudit.
  pose proof (getFinOpsSummary_world (GovernanceRequest.resourceId request)
                (logged (EvaluatePolicy (policyRequestOf request)) w)) as Hw.
  rewrite Hcost in Hw. simpl in Hw. subst wc.
  unfold evaluateGovernance. unfold_run. simpl.
  rewrite Hpolicy. simpl. rewrite Hsuccess, Hdata. simpl.
  rewrite Hcost. simpl. rewrite Htrack. simpl.
  rewrite (emitAuditSignal_returns _ _ Haudit). simpl.
  eexists _, _. split_and!; try reflexivity. simpl.
  rewrite !elem_of_app, !elem_of_cons. tauto.
Qed.

(** C3.  When the policy collaborator reports failure, or answers without
    a payload, [evaluateGovernance] returns no decision: it throws
    "Governance evaluation failed: <cause>", where the cause is the
    collaborator's error message, or "Policy evaluation failed" when no
    message (or an empty one) was given; nothing but the policy call has
    been made. *)
Theorem evaluateGovernance_policy_failure_is_fatal request w response :
  evaluatePolicy (policyEngine a) (policyRequestOf request) = Fulfilled response →
  reportsFailure response →
  let cause := orElse (AdapterResponse.error response) "Policy evaluation failed" in
  evaluateGovernance rt a request w
  = (Throw (ErrorObj ("Governance evaluation failed: " +:+ cause)),
     logged (EvaluatePolicy (policyRequestOf request)) w)
  ∧ (∀ message, AdapterResponse.error response = Some message → message ≠ "" →
                cause = message)
  ∧ (AdapterResponse.error response = None ∨ AdapterResponse.error response = Some "" →
     cause = "Policy evaluation failed").
Proof.
  intros Hpolicy Hfail cause. split_and!.
  - unfold evaluateGovernance. unfold_run. simpl.
    rewrite Hpolicy. simpl.
    destruct Hfail as [-> | ->]; [done|].
    by destruct (AdapterResponse.success response).
  - intros message Hm Hne. unfold cause. rewrite Hm. simpl.
    destruct (String.eqb_spec message ""); done.
  - intros [Hm|Hm]; unfold cause; by rewrite Hm.
Qed.

(** C4.  When the schema collaborator reports failure, or reports success
    with [valid: false], [emitAuditSignal] throws "Audit signal emission
    failed: Audit signal validation failed: <messages joined by ', '>",
    and the only call it has made is the validation: the dashboard is not
    called. *)
Theorem emitAuditSignal_invalid_signal_not_published signal w response :
  validate (schemaRegistry a) "audit.signal.v1" signal = Fulfilled response →
  (AdapterResponse.success response = false
   ∨ (AdapterResponse.success response = true
      ∧ ∃ result, AdapterResponse.data response = Some result
                  ∧ ValidationResult.valid result = false)) →
  let errors := from_option ValidationResult.errors [] (AdapterResponse.data response) in
  let w' := snd (emitAuditSignal rt a signal w) in
  fst (emitAuditSignal rt a signal w)
  = Throw (ErrorObj ("Audit signal emission failed: "
                     +:+ "Audit signal validation failed: "
                     +:+ join ", " (ValidationError.message <$> errors)))
  ∧ calls w' = (calls w ++ [Validate "audit.signal.v1" signal])%list
  ∧ ∀ event, PublishEvent event ∈ calls w' → PublishEvent event ∈ calls w.
Proof.
  intros Hvalidate Hinvalid errors w'.
  assert (emitAuditSignal rt a signal w
          = (Throw (ErrorObj ("Audit signal emission failed: "
                              +:+ "Audit signal validation failed: "
                              +:+ join ", " (ValidationError.message <$> errors))),
             logged (Validate "audit.signal.v1" signal) w)) as Hrun.
  { unfold emitAuditSignal. unfold_run. simpl. rewrite Hvalidate. simpl.
    subst errors.
    destruct Hinvalid as [-> | (-> & result & -> & Hv)]; simpl; [done|].
    by rewrite Hv. }
  subst w'. rewrite Hrun. simpl. split_and!; [done..|].
  intros event. rewrite elem_of_app, list_elem_of_singleton.
  intros [?|?]; [done|discriminate].
Qed.

(** C9.  The audit identifier of a returned decision is "audit-", the
    request identifier, "-", and the decimal numeral of the time read by
    [Date.now()], the third clock reading of the evaluation. *)
Theorem evaluateGovernance_auditId_format request w decision w' :
  evaluateGovernance rt a request w = (Return decision, w') →
  let generated := numberToString (clock rt (2 + ticks w)) in
  GovernanceDecision.auditId decision
  = "audit-" +:+ GovernanceRequest.requestId request +:+ "-" +:+ generated
  ∧ isNumeral generated = true.
Proof.
  intros Hrun generated. split; [|apply isNumeral_numberToString].
  revert Hrun. unfold evaluateGovernance. unfold_run. simpl.
  destruct (evaluatePolicy _ _) as [response|e|e]; simpl; [|discriminate..].
  destruct (AdapterResponse.success response),
    (AdapterResponse.data response) as [payload|]; simpl; try discriminate.
  match goal with
  | |- context [getFinOpsSummary ?r ?ad ?i ?w0] =>
      pose proof (getFinOpsSummary_world i w0) as Hw;
      destruct (getFinOpsSummary r ad i w0) as [[?|?] wc]
  end; simpl in Hw; subst wc; simpl.
  all: repeat case_step; try discriminate.
  all: by intros [= <- <-].
Qed.

(** C6.  When both cost queries are answered with a payload,
    [getFinOpsSummary] returns the total cost, the projected cost, and the
    budget status that the first-match rule gives for these two numbers:
    it is a function of them alone. *)
Theorem getFinOpsSummary_budgetStatus resourceId w metricsResponse metrics
    forecastResponse projection :
  let now := clock rt (ticks w) in
  getCostMetrics (costOps a) (costFiltersOf resourceId now) = Fulfilled metricsResponse →
  getForecast (costOps a) (forecastParamsOf resourceId) = Fulfilled forecastResponse →
  AdapterResponse.success metricsResponse = true →
  AdapterResponse.data metricsResponse = Some metrics →
  AdapterResponse.success forecastResponse = true →
  AdapterResponse.data forecastResponse = Some projection →
  let currentCost := CostMetrics.totalCost metrics in
  let forecast := CostForecast.projectedCost projection in
  fst (getFinOpsSummary rt a resourceId w)
  = Return {| FinOpsSummary.resourceId := resourceId;
              FinOpsSummary.currentCost := currentCost;
              FinOpsSummary.forecast := forecast;
              FinOpsSummary.budgetStatus := budgetStatusRule currentCost forecast |}
  ∧ (gt forecast (currentCost * 1.5)%float = true →
     budgetStatusRule currentCost forecast = "exceeded")
  ∧ (gt forecast (currentCost * 1.5)%float = false →
     gt forecast (currentCost * 0x1.3333333333333p+0)%float = true →
     budgetStatusRule currentCost forecast = "warning")
  ∧ (gt forecast (currentCost * 1.5)%float = false →
     gt forecast (currentCost * 0x1.3333333333333p+0)%float = false →
     budgetStatusRule currentCost forecast = "within").
Proof.
  intros now Hm Hf Hms Hmd Hfs Hfd currentCost forecast. split_and!.
  - unfold getFinOpsSummary. unfold_run. simpl.
    fold now. rewrite Hm, Hf. simpl. rewrite Hms, Hmd, Hfs, Hfd. done.
  - unfold budgetStatusRule. by intros ->.
  - unfold budgetStatusRule. by intros -> ->.
  - unfold budgetStatusRule. by intros -> ->.
Qed.


Lemma firstRejection_fulfilled {T : Type} (rs : list T) :
  firstRejection rt (Fulfilled <$> rs) = None.
Proof. induction rs as [|r rs IH]; simpl; done. Qed.

Lemma fulfilments_fulfilled {T : Type} (rs : list T) :
  fulfilments (Fulfilled <$> rs) = rs.
Proof. induction rs as [|r rs IH]; simpl; [done|]. f_equal. exact IH. Qed.


Lemma awaitAll_fulfilled {T : Type} (rs : list T) w :
  awaitAll rt (Fulfilled <$> rs) w = (Return rs, w).
Proof.
  unfold awaitAll. by rewrite firstRejection_fulfilled, fulfilments_fulfilled.
Qed.












(** An unknown principal: the roles lookup reports failure or has no
    payload. *)
Lemma resolveRBAC_roles_lookup_failure principal w response :
  getConfig (configManager a) ("rbac.roles." +:+ principal) = Fulfilled response →
  reportsFailure response →
  resolveRBAC rt a principal w
  = (Return {| RBACContext.principal := principal;
               RBACContext.roles := [];
               RBACContext.permissions := [];
               RBACContext.scope := None |},
     logged (GetConfig ("rbac.roles." +:+ principal)) w).
Proof.
  intros Hroles Hfail. unfold resolveRBAC. unfold_run. simpl.
  rewrite Hroles. simpl.
  destruct Hfail as [-> | ->]; [done|].
  by destruct (AdapterResponse.success response).
Qed.



(** C8.  When the roles lookup of a principal reports failure, or answers
    without a payload, [resolveRBAC] does not throw: it returns the
    context of that principal with no roles and no permissions. *)
Theorem resolveRBAC_unknown_principal_is_empty principal w response :
  getConfig (configManager a) ("rbac.roles." +:+ principal) = Fulfilled response →
  reportsFailure response →
  ∃ context w',
    resolveRBAC rt a principal w = (Return context, w')
    ∧ RBACContext.principal context = principal
    ∧ RBACContext.roles context = []
    ∧ RBACContext.permissions context = [].
Proof.
  intros Hroles Hfail. eexists _, _.
  split; [by apply (resolveRBAC_roles_lookup_failure _ _ _ Hroles)|done].
Qed.

(** With a policy payload, a fulfilled analytics promise and an audit
    emission that goes through, an evaluation returns a decision, whatever
    the cost summary does and whatever envelope the analytics collaborator
    answers. *)
Lemma evaluateGovernance_returns request w response payload tracked :
  evaluatePolicy (policyEngine a) (policyRequestOf request) = Fulfilled response →
  AdapterResponse.success response = true →
  AdapterResponse.data response = Some payload →
  track (analyticsHub a)
    (analyticsEventOf request (adapters.PolicyEvaluationResult.allowed payload)
       (clock rt (S (ticks w)))) = Fulfilled tracked →
  auditEmissionSucceeds rt a
    (auditSignalOf rt request (policyResultsOf payload) (clock rt (3 + ticks w))) →
  ∃ decision, fst (evaluateGovernance rt a request w) = Return decision.
Proof.
  intros Hpolicy Hsuccess Hdata Htrack Haudit.
  unfold evaluateGovernance. unfold_run. simpl.
  rewrite Hpolicy. simpl. rewrite Hsuccess, Hdata. simpl.
  match goal with
  | |- context [getFinOpsSummary ?r ?ad ?i ?w0] =>
      pose proof (getFinOpsSummary_world i w0) as Hw;
      destruct (getFinOpsSummary r ad i w0) as [[?|?] wc]
  end; simpl in Hw; subst wc; simpl.
  all: rewrite Htrack; simpl.
  all: rewrite (emitAuditSignal_returns _ _ Haudit); simpl; eauto.
Qed.

(** C5 (amended).  The envelopes of the policy call, of the two cost
    queries of a direct [getFinOpsSummary], and of the schema validation
    are inspected: there [success: false] is fatal and surfaces under the
    prefix of the operation.  The envelope answered by [track] is awaited
    but not inspected, so [success: false] there leaves the evaluation
    successful; and a failed roles lookup resolves to a context. *)
Theorem failure_envelopes_fatal_only_where_inspected
    (request : GovernanceRequest.t) (signal : AuditSignal.t)
    (resourceId principal : string) (w : World) :
  (∀ response,
     evaluatePolicy (policyEngine a) (policyRequestOf request) = Fulfilled response →
     AdapterResponse.success response = false →
     ∃ cause, fst (evaluateGovernance rt a request w)
              = Throw (ErrorObj ("Governance evaluation failed: " +:+ cause)))
  ∧ (∀ response,
       getCostMetrics (costOps a) (costFiltersOf resourceId (clock rt (ticks w)))
         = Fulfilled response →
       AdapterResponse.success response = false →
       ∃ cause, fst (getFinOpsSummary rt a resourceId w)
                = Throw (ErrorObj ("FinOps summary failed: " +:+ cause)))
  ∧ (∀ response,
       getForecast (costOps a) (forecastParamsOf resourceId) = Fulfilled response →
       AdapterResponse.success response = false →
       ∃ cause, fst (getFinOpsSummary rt a resourceId w)
                = Throw (ErrorObj ("FinOps summary failed: " +:+ cause)))
  ∧ (∀ response,
       validate (schemaRegistry a) "audit.signal.v1" signal = Fulfilled response →
       AdapterResponse.success response = false →
       ∃ cause, fst (emitAuditSignal rt a signal w)
                = Throw (ErrorObj ("Audit signal emission failed: " +:+ cause)))
  ∧ (∀ response payload tracked,
       evaluatePolicy (policyEngine a) (policyRequestOf request) = Fulfilled response →
       AdapterResponse.success response = true →
       AdapterResponse.data response = Some payload →
       track (analyticsHub a)
         (analyticsEventOf request (adapters.PolicyEvaluationResult.allowed payload)
            (clock rt (S (ticks w)))) = Fulfilled tracked →
       AdapterResponse.success tracked = false →
       auditEmissionSucceeds rt a
         (auditSignalOf rt request (policyResultsOf payload) (clock rt (3 + ticks w))) →
       ∃ decision, fst (evaluateGovernance rt a request w) = Return decision)
  ∧ (∀ response,
       getConfig (configManager a) ("rbac.roles." +:+ principal) = Fulfilled response →
       AdapterResponse.success response = false →
       ∃ context, fst (resolveRBAC rt a principal w) = Return context).
Proof.
  split_and!.
  - intros response Hpolicy Hfail. eexists.
    unfold evaluateGovernance. unfold_run. simpl.
    rewrite Hpolicy. simpl. rewrite Hfail. simpl. reflexivity.
  - intros response Hmetrics Hfail.
    unfold getFinOpsSummary. unfold_run. simpl. rewrite Hmetrics. simpl.
    destruct (getForecast _ _) as [projection|?|?]; simpl; [|by eexists..].
    rewrite Hfail. simpl. by eexists.
  - intros response Hforecast Hfail.
    unfold getFinOpsSummary. unfold_run. simpl. rewrite Hforecast.
    destruct (getCostMetrics _ _) as [metrics|?|?]; simpl; [|by eexists..].
    destruct (AdapterResponse.success metrics), (AdapterResponse.data metrics);
      simpl; try by eexists.
    rewrite Hfail. simpl. by eexists.
  - intros response Hvalidate Hfail.
    unfold emitAuditSignal. unfold_run. simpl. rewrite Hvalidate. simpl.
    rewrite Hfail. simpl. by eexists.
  - intros response payload tracked Hpolicy Hsuccess Hdata Htrack _ Haudit.
    by eapply evaluateGovernance_returns.
  - intros response Hroles Hfail.
    rewrite (resolveRBAC_roles_lookup_failure _ _ _ Hroles); [by eexists|].
    by left.
Qed.

End Orchestration.

(* ====================================================================== *)
(** ** Boundary validation *)
(* ====================================================================== *)

Lemma notNonEmptyString_whitespaceOnly s :
  whitespaceOnly s = true → handlers.notNonEmptyString (JStr s) = true.
Proof.
  intros Hs. unfold handlers.notNonEmptyString, handlers.trimsToEmpty.
  rewrite (trim_whitespaceOnly _ Hs). simpl. apply orb_true_r.
Qed.

(** Settle the position of a field among the required ones. *)
Ltac settle_position Hpass :=
  let i := fresh "i" in
  let Hi := fresh "Hi" in
  let Hall := fresh "Hall" in
  destruct Hpass as (i & Hi & Hall);
  repeat (destruct i as [|i]; simpl in Hi; try discriminate Hi);
  simpl in Hall.

Ltac blank_field_cases Hlook Hblank :=
  simpl; rewrite ?lookup_insert_eq, ?Hlook; simpl;
  rewrite ?lookup_insert_ne by discriminate;
  rewrite ?Hblank;
  repeat match goal with
  | |- context [handlers.notNonEmptyString (default JUndefined (?m !! ?k))] =>
      let E := fresh "E" in
      destruct (handlers.notNonEmptyString (default JUndefined (m !! k))) eqn:E
  end;
  (eexists; split; [reflexivity|split; [reflexivity|]]);
  let Hpass := fresh "Hpass" in
  intros Hpass; try reflexivity;
  settle_position Hpass;
  repeat match goal with
  | E : handlers.notNonEmptyString (default JUndefined (?m !! ?k)) = true,
    Hall : ∀ g, g ∈ _ → _ |- _ =>
      let F := fresh "F" in
      assert (handlers.notNonEmptyString (getProp (JObj m) k) = false) as F
        by (apply Hall; set_solver);
      simpl in F; congruence
  end.

Lemma validateGovernanceRequest_blank_field props field s :
  field ∈ requestFields →
  props !! field = Some (JStr s) →
  whitespaceOnly s = true →
  ∃ e,
    handlers.validateGovernanceRequest (JObj props) = Throw e
    ∧ handlers.validateGovernanceRequest (JObj (<[field := JStr ""]> props)) = Throw e
    ∧ (earlierFieldsPass requestFields field (JObj props) →
       e = ErrorObj ("Invalid request: " +:+ field +:+ " must be a non-empty string")).
Proof.
  intros Hfield Hlook Hblank%notNonEmptyString_whitespaceOnly.
  unfold requestFields in Hfield.
  repeat (apply elem_of_cons in Hfield as [-> | Hfield]);
    [..|by apply elem_of_nil in Hfield].
  all: unfold handlers.validateGovernanceRequest, earlierFieldsPass, requestFields.
  all: blank_field_cases Hlook Hblank.
Qed.

Lemma validateAuditSignal_blank_field props field s :
  field ∈ signalFields →
  props !! field = Some (JStr s) →
  whitespaceOnly s = true →
  ∃ e,
    handlers.validateAuditSignal (JObj props) = Throw e
    ∧ handlers.validateAuditSignal (JObj (<[field := JStr ""]> props)) = Throw e
    ∧ (earlierFieldsPass signalFields field (JObj props) →
       e = ErrorObj ("Invalid audit signal: " +:+ field +:+ " must be a non-empty string")).
Proof.
  intros Hfield Hlook Hblank%notNonEmptyString_whitespaceOnly.
  unfold signalFields in Hfield.
  repeat (apply elem_of_cons in Hfield as [-> | Hfield]);
    [..|by apply elem_of_nil in Hfield].
  all: unfold handlers.validateAuditSignal, earlierFieldsPass, signalFields.
  all: blank_field_cases Hlook Hblank.
Qed.

Lemma validatePrincipal_blank s :
  whitespaceOnly s = true →
  handlers.validatePrincipal (JStr s)
  = Throw (ErrorObj "Invalid principal: must be a non-empty string").
Proof.
  intros Hs. unfold handlers.validatePrincipal, handlers.trimsToEmpty.
  by rewrite (trim_whitespaceOnly _ Hs).
Qed.

Lemma validateResourceId_blank s :
  whitespaceOnly s = true →
  handlers.validateResourceId (JStr s)
  = Throw (ErrorObj "Invalid resourceId: must be a non-empty string").
Proof.
  intros Hs. unfold handlers.validateResourceId, handlers.trimsToEmpty.
  by rewrite (trim_whitespaceOnly _ Hs).
Qed.

(** C10.  A required string field that holds white space only is rejected
    like an empty one.  For an object handed to [handleGovernanceRequest] or
    [handleAuditEmission] whose [field] is such a string, the handler throws
    the very error it throws when [field] is the empty string, and that
    error names [field] whenever the fields checked before it pass; for
    [handleRBACResolution] and [handleFinOpsQuery] the blank argument is
    rejected with the error of the empty string.  This holds for every
    core, and the world is left as it was: the core is never invoked. *)
Theorem handlers_reject_whitespace_only_fields
    (core : handlers.GovernanceCore) (w : World)
    (props : gmap string JsVal) (field s : string) :
  whitespaceOnly s = true →
  props !! field = Some (JStr s) →
  (field ∈ requestFields →
   ∃ e,
     handlers.handleGovernanceRequest (JObj props) core w = (Throw e, w)
     ∧ handlers.handleGovernanceRequest (JObj (<[field := JStr ""]> props)) core w
       = (Throw e, w)
     ∧ (earlierFieldsPass requestFields field (JObj props) →
        e = ErrorObj ("Invalid request: " +:+ field +:+ " must be a non-empty string")))
  ∧ (field ∈ signalFields →
     ∃ e,
       handlers.handleAuditEmission (JObj props) core w = (Throw e, w)
       ∧ handlers.handleAuditEmission (JObj (<[field := JStr ""]> props)) core w
         = (Throw e, w)
       ∧ (earlierFieldsPass signalFields field (JObj props) →
          e = ErrorObj ("Invalid audit signal: " +:+ field
                        +:+ " must be a non-empty string")))
  ∧ handlers.handleRBACResolution (JStr s) core w
    = (Throw (ErrorObj "Invalid principal: must be a non-empty string"), w)
  ∧ handlers.handleRBACResolution (JStr s) core w
    = handlers.handleRBACResolution (JStr "") core w
  ∧ handlers.handleFinOpsQuery (JStr s) core w
    = (Throw (ErrorObj "Invalid resourceId: must be a non-empty string"), w)
  ∧ handlers.handleFinOpsQuery (JStr s) core w
    = handlers.handleFinOpsQuery (JStr "") core w.
Proof.
  intros Hs Hlook. split_and!.
  - intros Hfield.
    destruct (validateGovernanceRequest_blank_field _ _ _ Hfield Hlook Hs)
      as (e & H1 & H2 & H3).
    exists e. unfold handlers.handleGovernanceRequest. unfold_run.
    by rewrite H1, H2.
  - intros Hfield.
    destruct (validateAuditSignal_blank_field _ _ _ Hfield Hlook Hs)
      as (e & H1 & H2 & H3).
    exists e. unfold handlers.handleAuditEmission. unfold_run.
    by rewrite H1, H2.
  - unfold handlers.handleRBACResolution. unfold_run.
    by rewrite (validatePrincipal_blank _ Hs).
  - unfold handlers.handleRBACResolution. unfold_run.
    by rewrite (validatePrincipal_blank _ Hs).
  - unfold handlers.handleFinOpsQuery. unfold_run.
    by rewrite (validateResourceId_blank _ Hs).
  - unfold handlers.handleFinOpsQuery. unfold_run.
    by rewrite (validateResourceId_blank _ Hs).
Qed.

(* ====================================================================== *)
(** ** The statements at the collaborators of the test suite *)
(* ====================================================================== *)

Import mocks.

Lemma evaluateGovernance_keeps_policy_verdict_witness :
  ∃ response payload,
    evaluatePolicy (policyEngine mockAdapters) (policyRequestOf request123)
    = Fulfilled response
    ∧ AdapterResponse.data response = Some payload
    ∧ PolicyEvaluationResult.allowed (GovernanceDecision.policyResults decision123)
      = adapters.PolicyEvaluationResult.allowed payload
    ∧ GovernanceDecision.allowed decision123
      = PolicyEvaluationResult.allowed (GovernanceDecision.policyResults decision123).
Proof.
  apply (evaluateGovernance_keeps_policy_verdict mockRuntime mockAdapters request123
           world0 decision123
           (snd (evaluateGovernance mockRuntime mockAdapters request123 world0))).
  vm_compute. reflexivity.
Defined.

Lemma evaluateGovernance_survives_cost_failure_witness :
  ∃ decision w',
    evaluateGovernance mockRuntime metricsDownAdapters request123 world0
    = (Return decision, w')
    ∧ GovernanceDecision.costImpact decision = None
    ∧ GovernanceDecision.allowed decision
      = adapters.PolicyEvaluationResult.allowed readVerdict
    ∧ ConsoleWarn "Failed to retrieve cost data:"
        (ErrorObj "FinOps summary failed: cost service down") ∈ calls w'.
Proof.
  eapply (evaluateGovernance_survives_cost_failure mockRuntime metricsDownAdapters
            request123 world0 _ readVerdict).
  - reflexivity.
  - reflexivity.
  - reflexivity.
  - vm_compute. reflexivity.
  - reflexivity.
  - eexists _, _, _. split_and!; reflexivity.
Defined.

Lemma evaluateGovernance_policy_failure_is_fatal_witness :
  evaluateGovernance mockRuntime policyDownAdapters request123 world0
  = (Throw (ErrorObj "Governance evaluation failed: engine unavailable"),
     logged (EvaluatePolicy (policyRequestOf request123)) world0).
Proof.
  destruct (evaluateGovernance_policy_failure_is_fatal mockRuntime policyDownAdapters
              request123 world0 policyDownResponse eq_refl (or_introl eq_refl))
    as (Hrun & _ & _).
  exact Hrun.
Defined.

Lemma emitAuditSignal_invalid_signal_not_published_witness :
  fst (emitAuditSignal mockRuntime invalidSignalAdapters signal0 world0)
  = Throw (ErrorObj ("Audit signal emission failed: Audit signal validation failed: "
                     +:+ "unknown outcome, not a date"))
  ∧ calls (snd (emitAuditSignal mockRuntime invalidSignalAdapters signal0 world0))
    = [Validate "audit.signal.v1" signal0].
Proof.
  destruct (emitAuditSignal_invalid_signal_not_published mockRuntime invalidSignalAdapters
              signal0 world0 invalidSignalResponse eq_refl)
    as (Hthrow & Hcalls & _).
  - right. split; [reflexivity|]. eexists. split; reflexivity.
  - split; [exact Hthrow | exact Hcalls].
Defined.

Lemma evaluateGovernance_auditId_format_witness :
  GovernanceDecision.auditId decision123 = "audit-req-123-1730000000002"
  ∧ isNumeral "1730000000002" = true.
Proof.
  apply (evaluateGovernance_auditId_format mockRuntime mockAdapters request123 world0
           decision123
           (snd (evaluateGovernance mockRuntime mockAdapters request123 world0))).
  vm_compute. reflexivity.
Defined.

Lemma getFinOpsSummary_budgetStatus_witness :
  fst (getFinOpsSummary mockRuntime mockAdapters "resource-xyz" world0)
  = Return {| FinOpsSummary.resourceId := "resource-xyz";
              FinOpsSummary.currentCost := 100;
              FinOpsSummary.forecast := 110;
              FinOpsSummary.budgetStatus := "within" |}.
Proof.
  destruct (getFinOpsSummary_budgetStatus mockRuntime mockAdapters "resource-xyz" world0
              _ _ _ _ eq_refl eq_refl eq_refl eq_refl eq_refl eq_refl)
    as (Hrun & _).
  exact Hrun.
Defined.

(** The budget rule on binary64 numbers: the cases of the specification,
    and the two limits themselves, which are not exceeded. *)
Example budgetStatus_within :
  fst (getFinOpsSummary mockRuntime (withCostOps (CostOpsAdapter 100 110)) "r" world0)
  = Return {| FinOpsSummary.resourceId := "r"; FinOpsSummary.currentCost := 100;
              FinOpsSummary.forecast := 110; FinOpsSummary.budgetStatus := "within" |}.
Proof. reflexivity. Qed.

Example budgetStatus_warning :
  fst (getFinOpsSummary mockRuntime (withCostOps WarningCostOpsAdapter) "r" world0)
  = Return {| FinOpsSummary.resourceId := "r"; FinOpsSummary.currentCost := 100;
              FinOpsSummary.forecast := 125; FinOpsSummary.budgetStatus := "warning" |}.
Proof. reflexivity. Qed.

Example budgetStatus_exceeded :
  fst (getFinOpsSummary mockRuntime (withCostOps (CostOpsAdapter 100 160)) "r" world0)
  = Return {| FinOpsSummary.resourceId := "r"; FinOpsSummary.currentCost := 100;
              FinOpsSummary.forecast := 160; FinOpsSummary.budgetStatus := "exceeded" |}.
Proof. reflexivity. Qed.

Example budgetStatus_at_limits :
  budgetStatusRule 100 120 = "within" ∧ budgetStatusRule 100 150 = "warning".
Proof. split; reflexivity. Qed.


Lemma resolveRBAC_unknown_principal_is_empty_witness :
  ∃ context w',
    resolveRBAC mockRuntime mockAdapters "unknown-user" world0 = (Return context, w')
    ∧ RBACContext.principal context = "unknown-user"
    ∧ RBACContext.roles context = []
    ∧ RBACContext.permissions context = [].
Proof.
  apply (resolveRBAC_unknown_principal_is_empty mockRuntime mockAdapters "unknown-user"
           world0 notFoundResponse eq_refl).
  left. reflexivity.
Defined.

(** C5 as stated fails: the analytics hub answers [success: false] to
    [track] and [evaluateGovernance] returns the decision of the first
    test. *)
Lemma failure_envelope_of_analytics_is_not_fatal :
  track (analyticsHub unavailableAnalyticsAdapters)
    (analyticsEventOf request123 true (clock mockRuntime 1))
  = failed (Some "hub unavailable")
  ∧ fst (evaluateGovernance mockRuntime unavailableAnalyticsAdapters request123 world0)
    = Return decision123.
Proof. split; vm_compute; reflexivity. Qed.


Lemma failure_envelopes_fatal_only_where_inspected_witness :
  (∃ cause, fst (evaluateGovernance mockRuntime policyDownAdapters request123 world0)
            = Throw (ErrorObj ("Governance evaluation failed: " +:+ cause)))
  ∧ (∃ cause, fst (getFinOpsSummary mockRuntime metricsDownAdapters "resource-abc" world0)
              = Throw (ErrorObj ("FinOps summary failed: " +:+ cause)))
  ∧ (∃ cause, fst (getFinOpsSummary mockRuntime forecastDownAdapters "resource-abc" world0)
              = Throw (ErrorObj ("FinOps summary failed: " +:+ cause)))
  ∧ (∃ cause, fst (emitAuditSignal mockRuntime schemaDownAdapters signal0 world0)
              = Throw (ErrorObj ("Audit signal emission failed: " +:+ cause)))
  ∧ (∃ decision,
       fst (evaluateGovernance mockRuntime unavailableAnalyticsAdapters request123 world0)
       = Return decision)
  ∧ (∃ context,
       fst (resolveRBAC mockRuntime mockAdapters "unknown-user" world0) = Return context).
Proof.
  split_and!.
  - destruct (failure_envelopes_fatal_only_where_inspected mockRuntime policyDownAdapters
                request123 signal0 "resource-abc" "unknown-user" world0)
      as (H & _).
    exact (H policyDownResponse eq_refl eq_refl).
  - destruct (failure_envelopes_fatal_only_where_inspected mockRuntime metricsDownAdapters
                request123 signal0 "resource-abc" "unknown-user" world0)
      as (_ & H & _).
    exact (H _ eq_refl eq_refl).
  - destruct (failure_envelopes_fatal_only_where_inspected mockRuntime forecastDownAdapters
                request123 signal0 "resource-abc" "unknown-user" world0)
      as (_ & _ & H & _).
    exact (H _ eq_refl eq_refl).
  - destruct (failure_envelopes_fatal_only_where_inspected mockRuntime schemaDownAdapters
                request123 signal0 "resource-abc" "unknown-user" world0)
      as (_ & _ & _ & H & _).
    exact (H _ eq_refl eq_refl).
  - destruct (failure_envelopes_fatal_only_where_inspected mockRuntime
                unavailableAnalyticsAdapters request123 signal0 "resource-abc"
                "unknown-user" world0)
      as (_ & _ & _ & _ & H & _).
    apply (H _ readVerdict _ eq_refl eq_refl eq_refl eq_refl eq_refl).
    eexists _, _, _. split_and!; reflexivity.
  - destruct (failure_envelopes_fatal_only_where_inspected mockRuntime mockAdapters
                request123 signal0 "resource-abc" "unknown-user" world0)
      as (_ & _ & _ & _ & _ & H).
    exact (H notFoundResponse eq_refl eq_refl).
Defined.

Lemma handlers_reject_whitespace_only_fields_witness :
  handlers.handleGovernanceRequest (JObj blankActionRequest)
    (createGovernanceCore mockRuntime mockAdapters) world0
  = (Throw (ErrorObj "Invalid request: action must be a non-empty string"), world0)
  ∧ handlers.handleGovernanceRequest (JObj (<["action" := JStr ""]> blankActionRequest))
      (createGovernanceCore mockRuntime mockAdapters) world0
    = (Throw (ErrorObj "Invalid request: action must be a non-empty string"), world0)
  ∧ handlers.handleRBACResolution (JStr (String " " (String " " (String "009" EmptyString))))
      (createGovernanceCore mockRuntime mockAdapters) world0
    = (Throw (ErrorObj "Invalid principal: must be a non-empty string"), world0).
Proof.
  destruct (handlers_reject_whitespace_only_fields
              (createGovernanceCore mockRuntime mockAdapters) world0
              blankActionRequest "action"
              (String " " (String " " (String "009" EmptyString))) eq_refl eq_refl)
    as (Hrequest & _ & Hprincipal & _).
  destruct Hrequest as (e & Hblank & Hempty & Hname).
  { unfold requestFields. rewrite !elem_of_cons. auto. }
  assert (e = ErrorObj "Invalid request: action must be a non-empty string") as ->.
  { apply Hname. exists 2. split; [reflexivity|].
    intros g Hg. simpl in Hg. rewrite !elem_of_cons, elem_of_nil in Hg.
    destruct Hg as [-> | [-> | []]]; reflexivity. }
  split_and!; assumption.
Defined.

Lemma handleAuditEmission_blank_outcome :
  handlers.handleAuditEmission (JObj blankOutcomeSignal)
    (createGovernanceCore mockRuntime mockAdapters) world0
  = (Throw (ErrorObj "Invalid audit signal: outcome must be a non-empty string"), world0).
Proof. vm_compute. reflexivity. Qed.

(* ====================================================================== *)
(** ** Further properties of the orchestrator *)
(* ====================================================================== *)

Section OrchestrationTraces.

Context (rt : Runtime) (a : AdapterCollection).

(** What audit emission leaves in the log: the validation call, and the
    dashboard call exactly when the validation passed; the clock is not
    read. *)
Lemma emitAuditSignal_world signal w :
  snd (emitAuditSignal rt a signal w)
  = if validationPassed (validate (schemaRegistry a) "audit.signal.v1" signal)
    then logged (PublishEvent (governanceEventOf rt signal))
           (logged (Validate "audit.signal.v1" signal) w)
    else logged (Validate "audit.signal.v1" signal) w.
Proof.
  unfold emitAuditSignal, validationPassed. unfold_run. simpl.
  destruct (validate _ _ _) as [response|?|?]; simpl; [|done..].
  destruct (AdapterResponse.success response); simpl; [|done].
  destruct (AdapterResponse.data response) as [result|]; simpl; [|done].
  destruct (ValidationResult.valid result); simpl; [|done].
  by destruct (publishEvent _ _).
Qed.

Lemma emitAuditSignal_return_inv signal w u w' :
  emitAuditSignal rt a signal w = (Return u, w') →
  auditEmissionSucceeds rt a signal
  ∧ w' = logged (PublishEvent (governanceEventOf rt signal))
           (logged (Validate "audit.signal.v1" signal) w).
Proof.
  unfold emitAuditSignal, auditEmissionSucceeds. unfold_run. simpl.
  destruct (validate _ _ _) as [response|?|?] eqn:Hv; simpl; [|discriminate..].
  destruct (AdapterResponse.success response) eqn:Hs; simpl; [|discriminate].
  destruct (AdapterResponse.data response) as [result|] eqn:Hd; simpl; [|discriminate].
  destruct (ValidationResult.valid result) eqn:Hvalid; simpl; [|discriminate].
  destruct (publishEvent _ _) as [published|?|?] eqn:Hp; simpl; [|discriminate..].
  intros [= <- <-]. split; [|done]. by exists response, result, published.
Qed.

(** Everything a returned decision tells about the run that produced it. *)
Lemma evaluateGovernance_return_inv request w decision w' :
  evaluateGovernance rt a request w = (Return decision, w') →
  ∃ response payload costOutcome tracked,
    let resourceId := GovernanceRequest.resourceId request in
    let policyResults := policyResultsOf payload in
    let signal := auditSignalOf rt request policyResults (clock rt (3 + ticks w)) in
    let event := analyticsEventOf request (PolicyEvaluationResult.allowed policyResults)
                   (clock rt (S (ticks w))) in
    evaluatePolicy (policyEngine a) (policyRequestOf request) = Fulfilled response
    ∧ AdapterResponse.success response = true
    ∧ AdapterResponse.data response = Some payload
    ∧ fst (getFinOpsSummary rt a resourceId
             (logged (EvaluatePolicy (policyRequestOf request)) w)) = costOutcome
    ∧ track (analyticsHub a) event = Fulfilled tracked
    ∧ auditEmissionSucceeds rt a signal
    ∧ decision
      = {| GovernanceDecision.requestId := GovernanceRequest.requestId request;
           GovernanceDecision.allowed := PolicyEvaluationResult.allowed policyResults;
           GovernanceDecision.policyResults := policyResults;
           GovernanceDecision.costImpact :=
             match costOutcome with Return summary => Some summary | Throw _ => None end;
           GovernanceDecision.auditId := auditIdOf request (clock rt (2 + ticks w)) |}
    ∧ calls w'
      = (calls w
         ++ [EvaluatePolicy (policyRequestOf request);
             GetCostMetrics (costFiltersOf resourceId (clock rt (ticks w)))]
         ++ match getCostMetrics (costOps a)
                    (costFiltersOf resourceId (clock rt (ticks w))) with
            | Threw _ => []
            | _ => [GetForecast (forecastParamsOf resourceId)]
            end
         ++ match costOutcome with
            | Return _ => []
            | Throw e => [ConsoleWarn "Failed to retrieve cost data:" e]
            end
         ++ [Track event; Validate "audit.signal.v1" signal;
             PublishEvent (governanceEventOf rt signal)])%list
    ∧ ticks w' = 4 + ticks w.
Proof.
  unfold evaluateGovernance. unfold_run. simpl.
  destruct (evaluatePolicy _ _) as [response|e|e] eqn:Hpolicy; simpl; [|discriminate..].
  destruct (AdapterResponse.success response) eqn:Hs,
    (AdapterResponse.data response) as [payload|] eqn:Hd; simpl; try discriminate.
  match goal with
  | |- context [getFinOpsSummary ?r ?ad ?i ?w0] =>
      pose proof (getFinOpsSummary_world r ad i w0) as Hw;
      destruct (getFinOpsSummary r ad i w0) as [costOutcome wc] eqn:Hcost
  end; simpl in Hw; subst wc.
  destruct costOutcome as [summary|e]; simpl.
  all: destruct (track _ _) as [tracked|?|?] eqn:Htrack; simpl; [|discriminate..].
  all: match goal with
       | |- context [emitAuditSignal ?r ?ad ?s ?w0] =>
           destruct (emitAuditSignal r ad s w0) as [[u|?] w4] eqn:Haudit
       end; simpl; [|discriminate].
  all: apply emitAuditSignal_return_inv in Haudit as [Haudit ->].
  all: intros [= <- <-].
  all: eexists response, payload, _, tracked; simpl.
  all: split_and!; try done; simpl.
  all: destruct (getCostMetrics _ _); simpl; by rewrite <- ?app_assoc.
Qed.

(** X1.  A successful evaluation has called its collaborators in one fixed
    order: policy, cost metrics, cost forecast unless [getCostMetrics]
    threw instead of returning a promise, then (after a warning when the
    cost summary failed) analytics, schema validation and dashboard; it
    has read the clock four times. *)
Theorem evaluateGovernance_calls_in_order request w decision w' :
  evaluateGovernance rt a request w = (Return decision, w') →
  let resourceId := GovernanceRequest.resourceId request in
  let filters := costFiltersOf resourceId (clock rt (ticks w)) in
  let signal := auditSignalOf rt request (GovernanceDecision.policyResults decision)
                  (clock rt (3 + ticks w)) in
  ∃ warned,
    (warned = [] ∧ is_Some (GovernanceDecision.costImpact decision)
     ∨ ∃ e, warned = [ConsoleWarn "Failed to retrieve cost data:" e]
            ∧ GovernanceDecision.costImpact decision = None)
    ∧ calls w'
      = (calls w
         ++ [EvaluatePolicy (policyRequestOf request); GetCostMetrics filters]
         ++ match getCostMetrics (costOps a) filters with
            | Threw _ => []
            | _ => [GetForecast (forecastParamsOf resourceId)]
            end
         ++ warned
         ++ [Track (analyticsEventOf request (GovernanceDecision.allowed decision)
                      (clock rt (S (ticks w))));
             Validate "audit.signal.v1" signal;
             PublishEvent (governanceEventOf rt signal)])%list
    ∧ ticks w' = 4 + ticks w.
Proof.
  intros Hrun.
  destruct (evaluateGovernance_return_inv _ _ _ _ Hrun)
    as (response & payload & costOutcome & tracked & _ & _ & _ & _ & _ & _
        & -> & Hcalls & Hticks).
  simpl. destruct costOutcome as [summary|e].
  - exists []. split_and!; [left; eauto|exact Hcalls|exact Hticks].
  - exists [ConsoleWarn "Failed to retrieve cost data:" e].
    split_and!; [right; eauto|exact Hcalls|exact Hticks].
Qed.

(** X2.  The last thing a successful evaluation does is publish the audit
    signal to the dashboard, with severity [info] and outcome "allowed" for
    an allowed request, and severity [warning] and outcome "denied" for a
    denied one; the signal names the action, principal and resource of the
    request. *)
Theorem evaluateGovernance_publishes_verdict request w decision w' :
  evaluateGovernance rt a request w = (Return decision, w') →
  ∃ event,
    last (calls w') = Some (PublishEvent event)
    ∧ GovernanceEvent.eventType event = "audit.signal"
    ∧ GovernanceEvent.severity event
      = (if GovernanceDecision.allowed decision then info else warning)
    ∧ AuditSignal.outcome (GovernanceEvent.details event)
      = (if GovernanceDecision.allowed decision then "allowed" else "denied")
    ∧ AuditSignal.action (GovernanceEvent.details event) = GovernanceRequest.action request
    ∧ AuditSignal.principal (GovernanceEvent.details event)
      = GovernanceRequest.principal request
    ∧ AuditSignal.resource (GovernanceEvent.details event)
      = GovernanceRequest.resourceId request.
Proof.
  intros Hrun.
  destruct (evaluateGovernance_return_inv _ _ _ _ Hrun)
    as (response & payload & costOutcome & tracked & _ & _ & _ & _ & _ & _
        & -> & Hcalls & _).
  eexists. split.
  { rewrite Hcalls, !app_assoc.
    rewrite (last_app _ [_; _; _]). simpl. reflexivity. }
  simpl. by destruct (adapters.PolicyEvaluationResult.allowed payload).
Qed.

Lemma emitAuditSignal_outcome_independent signal w1 w2 :
  fst (emitAuditSignal rt a signal w1) = fst (emitAuditSignal rt a signal w2).
Proof.
  unfold emitAuditSignal. unfold_run. simpl.
  destruct (validate _ _ _) as [response|?|?]; simpl; [|done..].
  destruct (AdapterResponse.success response); simpl; [|done].
  destruct (AdapterResponse.data response) as [result|]; simpl; [|done].
  destruct (ValidationResult.valid result); simpl; [|done].
  by destruct (publishEvent _ _).
Qed.

(** X3.  Audit emission is fatal to an evaluation.  When the policy
    collaborator answered and the analytics promise was fulfilled, but
    emitting the audit signal throws, the evaluation throws "Governance
    evaluation failed: <what emission threw>"; by then the analytics event
    has been sent. *)
Theorem evaluateGovernance_audit_failure_is_fatal
    request w response payload tracked error :
  let signal := auditSignalOf rt request (policyResultsOf payload)
                  (clock rt (3 + ticks w)) in
  let event := analyticsEventOf request (adapters.PolicyEvaluationResult.allowed payload)
                 (clock rt (S (ticks w))) in
  evaluatePolicy (policyEngine a) (policyRequestOf request) = Fulfilled response →
  AdapterResponse.success response = true →
  AdapterResponse.data response = Some payload →
  track (analyticsHub a) event = Fulfilled tracked →
  fst (emitAuditSignal rt a signal w) = Throw error →
  fst (evaluateGovernance rt a request w)
  = Throw (ErrorObj ("Governance evaluation failed: " +:+ describe error))
  ∧ Track event ∈ calls (snd (evaluateGovernance rt a request w)).
Proof.
  intros signal event Hpolicy Hsuccess Hdata Htrack Haudit.
  unfold evaluateGovernance. unfold_run. simpl.
  rewrite Hpolicy. simpl. rewrite Hsuccess, Hdata. simpl.
  match goal with
  | |- context [getFinOpsSummary ?r ?ad ?i ?w0] =>
      pose proof (getFinOpsSummary_world r ad i w0) as Hw;
      destruct (getFinOpsSummary r ad i w0) as [[summary|e] wc]
  end; simpl in Hw; subst wc; simpl.
  all: fold event; rewrite Htrack; simpl.
  all: match goal with
       | |- context [emitAuditSignal ?r ?ad ?s ?w0] =>
           assert (fst (emitAuditSignal r ad s w0) = Throw error) as Hi
             by (rewrite (emitAuditSignal_outcome_independent s w0 w); exact Haudit);
           pose proof (emitAuditSignal_world s w0) as Hw;
           destruct (emitAuditSignal r ad s w0) as [c w4]
       end; simpl in Hi, Hw; subst c w4; simpl.
  all: split; [done|].
  all: destruct (validationPassed _); simpl;
       rewrite !elem_of_app, !elem_of_cons; tauto.
Qed.

(** X4.  A rejected analytics promise is fatal to an evaluation, and the
    audit signal is then never emitted: the evaluation throws "Governance
    evaluation failed: <rejection>", and it adds neither a validation nor a
    dashboard call to the log. *)
Theorem evaluateGovernance_analytics_rejection_is_fatal
    request w response payload error :
  let event := analyticsEventOf request (adapters.PolicyEvaluationResult.allowed payload)
                 (clock rt (S (ticks w))) in
  let w' := snd (evaluateGovernance rt a request w) in
  evaluatePolicy (policyEngine a) (policyRequestOf request) = Fulfilled response →
  AdapterResponse.success response = true →
  AdapterResponse.data response = Some payload →
  track (analyticsHub a) event = Rejected error →
  fst (evaluateGovernance rt a request w)
  = Throw (ErrorObj ("Governance evaluation failed: " +:+ describe error))
  ∧ (∀ schemaId signal,
       Validate schemaId signal ∈ calls w' → Validate schemaId signal ∈ calls w)
  ∧ (∀ published, PublishEvent published ∈ calls w' → PublishEvent published ∈ calls w).
Proof.
  intros event w' Hpolicy Hsuccess Hdata Htrack. subst w'.
  unfold evaluateGovernance. unfold_run. simpl.
  rewrite Hpolicy. simpl. rewrite Hsuccess, Hdata. simpl.
  match goal with
  | |- context [getFinOpsSummary ?r ?ad ?i ?w0] =>
      pose proof (getFinOpsSummary_world r ad i w0) as Hw;
      destruct (getFinOpsSummary r ad i w0) as [[summary|e] wc]
  end; simpl in Hw; subst wc; simpl.
  all: fold event; rewrite Htrack; simpl.
  all: split_and!; [done|..].
  all: destruct (getCostMetrics _ _); simpl.
  all: intros *; rewrite !elem_of_app, !elem_of_cons, ?elem_of_nil.
  all: intros H; repeat match goal with H : _ ∨ _ |- _ => destruct H as [H|H] end.
  all: try done; discriminate.
Qed.

Lemma tryCatch_wrap {A : Type} (body : M A) (prefix : string) w e :
  fst (tryCatch body (λ error, throw (ErrorObj (prefix +:+ describe error))) w) = Throw e →
  ∃ cause, e = ErrorObj (prefix +:+ cause).
Proof.
  unfold tryCatch, throw. destruct (body w) as [[result|error] w1]; simpl; [done|].
  intros [= <-]. by eexists.
Qed.

(** X5.  Whatever one of the four operations throws is an [Error] whose
    message starts with the prefix of that operation; no collaborator
    rejection and no thrown non-[Error] value escapes as it is. *)
Theorem operations_throw_only_wrapped_errors request principal resourceId signal w e :
  (fst (evaluateGovernance rt a request w) = Throw e →
   ∃ cause, e = ErrorObj ("Governance evaluation failed: " +:+ cause))
  ∧ (fst (resolveRBAC rt a principal w) = Throw e →
     ∃ cause, e = ErrorObj ("RBAC resolution failed: " +:+ cause))
  ∧ (fst (getFinOpsSummary rt a resourceId w) = Throw e →
     ∃ cause, e = ErrorObj ("FinOps summary failed: " +:+ cause))
  ∧ (fst (emitAuditSignal rt a signal w) = Throw e →
     ∃ cause, e = ErrorObj ("Audit signal emission failed: " +:+ cause)).
Proof.
  split_and!; apply tryCatch_wrap.
Qed.

(** X7.  When both cost queries are answered but unusable, the failure of
    the metrics query is the one reported: the cause is its error message,
    or "Failed to get cost metrics"; the forecast's message, or "Failed to
    get cost forecast", is reported only when the metrics were usable. *)
Theorem getFinOpsSummary_reports_metrics_failure_first
    resourceId w metricsResponse forecastResponse :
  getCostMetrics (costOps a) (costFiltersOf resourceId (clock rt (ticks w)))
    = Fulfilled metricsResponse →
  getForecast (costOps a) (forecastParamsOf resourceId) = Fulfilled forecastResponse →
  (reportsFailure metricsResponse →
   fst (getFinOpsSummary rt a resourceId w)
   = Throw (ErrorObj ("FinOps summary failed: "
                      +:+ orElse (AdapterResponse.error metricsResponse)
                                 "Failed to get cost metrics")))
  ∧ (¬ reportsFailure metricsResponse → reportsFailure forecastResponse →
     fst (getFinOpsSummary rt a resourceId w)
     = Throw (ErrorObj ("FinOps summary failed: "
                        +:+ orElse (AdapterResponse.error forecastResponse)
                                   "Failed to get cost forecast"))).
Proof.
  intros Hmetrics Hforecast.
  unfold getFinOpsSummary, reportsFailure. unfold_run. simpl.
  rewrite Hmetrics, Hforecast. simpl.
  destruct (AdapterResponse.success metricsResponse),
    (AdapterResponse.data metricsResponse) as [metrics|]; simpl.
  2-4: split; [done|]; intros Hn; exfalso; apply Hn; auto.
  split; [by intros [?|?]|]. intros _ [-> | ->]; simpl; [done|].
  by destruct (AdapterResponse.success forecastResponse).
Qed.

(** X8.  A cost summary first asks for the cost metrics of the resource
    alone, over a window that ends at the time read and spans thirty days
    (2 592 000 000 ms); it then asks for a thirty-day forecast of the
    resource alone, unless [getCostMetrics] threw instead of returning a
    promise; it makes no other call. *)
Theorem getFinOpsSummary_queries_thirty_days resourceId w :
  ∃ filters params,
    calls (snd (getFinOpsSummary rt a resourceId w))
    = (calls w
       ++ GetCostMetrics filters
          :: match getCostMetrics (costOps a) filters with
             | Threw _ => []
             | _ => [GetForecast params]
             end)%list
    ∧ CostFilters.endDate filters = clock rt (ticks w)
    ∧ (CostFilters.endDate filters - CostFilters.startDate filters = 2592000000)%Z
    ∧ CostFilters.services filters = [resourceId]
    ∧ ForecastParams.horizon params = 30%Z
    ∧ ForecastParams.services params = [resourceId].
Proof.
  rewrite getFinOpsSummary_world. simpl.
  eexists _, _. split; [reflexivity|]. simpl. split_and!; try done. lia.
Qed.

(** X9.  Audit emission returns exactly when the schema collaborator
    answers [success: true] with a payload saying [valid: true] and the
    promise of the dashboard call is fulfilled; a rejected promise, a
    missing payload or [valid: false] makes it throw. *)
Theorem emitAuditSignal_returns_iff signal w :
  (∃ w', emitAuditSignal rt a signal w = (Return tt, w'))
  ↔ auditEmissionSucceeds rt a signal.
Proof.
  split.
  - intros [w' Hrun]. by apply emitAuditSignal_return_inv in Hrun as [? _].
  - intros Hok. eexists. by apply emitAuditSignal_returns.
Qed.

(** X10.  Audit emission always calls the schema collaborator first, with
    the schema "audit.signal.v1" and the signal itself, and it calls the
    dashboard, once and last, exactly when the validation passed. *)
Theorem emitAuditSignal_calls_dashboard_iff_valid signal w :
  calls (snd (emitAuditSignal rt a signal w))
  = (calls w
     ++ Validate "audit.signal.v1" signal
        :: if validationPassed (validate (schemaRegistry a) "audit.signal.v1" signal)
           then [PublishEvent (governanceEventOf rt signal)]
           else [])%list.
Proof.
  rewrite emitAuditSignal_world.
  destruct (validationPassed _); simpl; [|done]. by rewrite <- app_assoc.
Qed.

(** X11.  The event published for a valid signal carries the signal
    itself, the parsed timestamp of the signal, and severity [warning]
    exactly when the outcome is the string "denied"; every other outcome is
    published as [info]. *)
Theorem emitAuditSignal_severity signal w :
  validationPassed (validate (schemaRegistry a) "audit.signal.v1" signal) = true →
  ∃ event,
    last (calls (snd (emitAuditSignal rt a signal w))) = Some (PublishEvent event)
    ∧ GovernanceEvent.details event = signal
    ∧ GovernanceEvent.timestamp event = parseDate rt (AuditSignal.timestamp signal)
    ∧ GovernanceEvent.eventType event = "audit.signal"
    ∧ (GovernanceEvent.severity event = warning ↔ AuditSignal.outcome signal = "denied")
    ∧ (GovernanceEvent.severity event = info ↔ AuditSignal.outcome signal ≠ "denied").
Proof.
  intros Hvalid. exists (governanceEventOf rt signal).
  rewrite emitAuditSignal_world, Hvalid. simpl.
  split; [by rewrite last_snoc|]. split_and!; try done.
  all: destruct (String.eqb_spec (AuditSignal.outcome signal) "denied"); split; done.
Qed.








End OrchestrationTraces.

(* ====================================================================== *)
(** ** Further properties of the boundary validation *)
(* ====================================================================== *)

Lemma whitespaceOnly_false_trim s : whitespaceOnly s = false → String.eqb (trim s) "" = false.
Proof.
  intros Hs. destruct (String.eqb_spec (trim s) "") as [Heq|]; [|done].
  apply trim_empty_iff in Heq. congruence.
Qed.

Lemma notNonEmptyString_false_iff v :
  handlers.notNonEmptyString v = false ↔ ∃ s, v = JStr s ∧ whitespaceOnly s = false.
Proof.
  split.
  - unfold handlers.notNonEmptyString.
    destruct v as [| |b|x|s|items|props]; simpl; rewrite ?orb_true_r; try done.
    rewrite orb_false_r. intros [_ Htrim]%orb_false_elim. exists s. split; [done|].
    destruct (whitespaceOnly s) eqn:Hs; [|done].
    by rewrite (trim_whitespaceOnly _ Hs) in Htrim.
  - intros (s & -> & Hs). unfold handlers.notNonEmptyString. simpl.
    rewrite (whitespaceOnly_false_trim _ Hs).
    destruct s; [done|]. done.
Qed.

Lemma notPlainObjectIfProvided_false_iff v :
  handlers.notPlainObjectIfProvided v = false ↔ v = JUndefined ∨ ∃ object, v = JObj object.
Proof.
  unfold handlers.notPlainObjectIfProvided.
  destruct v; simpl; split; try done; eauto.
  all: intros [?|[? ?]]; done.
Qed.

Lemma getProp_plainObjectIfProvided props field :
  handlers.notPlainObjectIfProvided (getProp (JObj props) field) = false
  ↔ plainObjectIfProvided props field.
Proof.
  rewrite notPlainObjectIfProvided_false_iff. unfold plainObjectIfProvided. simpl.
  destruct (props !! field) as [v|]; simpl.
  - split.
    + intros [-> | [object ->]]; eauto.
    + intros [?|[[= ->]|[object [= ->]]]]; eauto. done.
  - split; auto.
Qed.

Lemma getProp_holdsText props field :
  handlers.notNonEmptyString (getProp (JObj props) field) = false
  ↔ ∃ text, holdsText props field text.
Proof.
  rewrite notNonEmptyString_false_iff. unfold holdsText. simpl.
  destruct (props !! field) as [v|]; simpl.
  - split; intros (s & Hs & Hw); exists s; split; congruence.
  - split; [intros (s & [=] & _) | intros (s & [=] & _)].
Qed.

(** [!v || typeof v !== 'object'] lets plain objects and arrays through, and
    nothing else. *)
Lemma object_gate v :
  negb (truthy v) || negb (String.eqb (typeof v) "object")
  = match v with JObj _ | JArr _ => false | _ => true end.
Proof. destruct v; simpl; rewrite ?orb_true_r; done. Qed.

Lemma validateGovernanceRequest_accepts props requestId resourceId action principal :
  holdsText props "requestId" requestId →
  holdsText props "resourceId" resourceId →
  holdsText props "action" action →
  holdsText props "principal" principal →
  plainObjectIfProvided props "context" →
  handlers.validateGovernanceRequest (JObj props)
  = Return {| GovernanceRequest.requestId := requestId;
              GovernanceRequest.resourceId := resourceId;
              GovernanceRequest.action := action;
              GovernanceRequest.principal := principal;
              GovernanceRequest.context :=
                match props !! "context" with
                | Some (JObj context) => Some context
                | _ => None
                end |}.
Proof.
  intros H1 H2 H3 H4 H5.
  unfold handlers.validateGovernanceRequest. rewrite object_gate.
  rewrite (proj2 (getProp_holdsText props "requestId")) by eauto.
  rewrite (proj2 (getProp_holdsText props "resourceId")) by eauto.
  rewrite (proj2 (getProp_holdsText props "action")) by eauto.
  rewrite (proj2 (getProp_holdsText props "principal")) by eauto.
  rewrite (proj2 (getProp_plainObjectIfProvided props "context")) by done.
  destruct H1 as [L1 _], H2 as [L2 _], H3 as [L3 _], H4 as [L4 _].
  unfold handlers.asGovernanceRequest. simpl. rewrite L1, L2, L3, L4. simpl.
  do 2 f_equal. by destruct (props !! "context") as [[]|].
Qed.



(** X17.  A request whose four required fields are in order but whose
    context is provided and is not a plain object ([null], an array, a
    string, a number, a boolean) is rejected for its context, and the core
    is not invoked. *)
Theorem handleGovernanceRequest_rejects_bad_context
    props requestId resourceId action principal core w :
  holdsText props "requestId" requestId →
  holdsText props "resourceId" resourceId →
  holdsText props "action" action →
  holdsText props "principal" principal →
  ¬ plainObjectIfProvided props "context" →
  handlers.handleGovernanceRequest (JObj props) core w
  = (Throw (ErrorObj "Invalid request: context must be an object if provided"), w).
Proof.
  intros H1 H2 H3 H4 H5.
  unfold handlers.handleGovernanceRequest, handlers.validateGovernanceRequest.
  unfold_run. rewrite object_gate.
  rewrite (proj2 (getProp_holdsText props "requestId")) by eauto.
  rewrite (proj2 (getProp_holdsText props "resourceId")) by eauto.
  rewrite (proj2 (getProp_holdsText props "action")) by eauto.
  rewrite (proj2 (getProp_holdsText props "principal")) by eauto.
  destruct (handlers.notPlainObjectIfProvided (getProp (JObj props) "context")) eqn:Hc;
    [done|].
  by apply getProp_plainObjectIfProvided in Hc.
Qed.

(** X18.  A typed request whose four required strings are not blank passes
    the boundary unchanged: handling the plain object that carries it is
    evaluating the request itself, context included. *)
Theorem handleGovernanceRequest_passes_request_unchanged request core w :
  whitespaceOnly (GovernanceRequest.requestId request) = false →
  whitespaceOnly (GovernanceRequest.resourceId request) = false →
  whitespaceOnly (GovernanceRequest.action request) = false →
  whitespaceOnly (GovernanceRequest.principal request) = false →
  handlers.handleGovernanceRequest (ofGovernanceRequest request) core w
  = handlers.evaluateGovernance core request w.
Proof.
  intros H1 H2 H3 H4. destruct request as [requestId resourceId action principal context].
  simpl in *. unfold handlers.handleGovernanceRequest, ofGovernanceRequest. simpl.
  erewrite (validateGovernanceRequest_accepts _ requestId resourceId action principal).
  - unfold_run. do 2 f_equal. f_equal.
    rewrite !lookup_insert_ne by done.
    destruct context; [by rewrite lookup_insert_eq|by rewrite lookup_empty].
  - split; [|done]. by rewrite lookup_insert_eq.
  - split; [|done]. rewrite lookup_insert_ne by done. by rewrite lookup_insert_eq.
  - split; [|done]. rewrite !lookup_insert_ne by done. by rewrite lookup_insert_eq.
  - split; [|done]. rewrite !lookup_insert_ne by done. by rewrite lookup_insert_eq.
  - unfold plainObjectIfProvided. rewrite !lookup_insert_ne by done.
    destruct context; [rewrite lookup_insert_eq; eauto|rewrite lookup_empty; eauto].
Qed.

(** X19.  [handleRBACResolution] and [handleFinOpsQuery] invoke the core
    exactly for a string that is not blank, and they pass that string as it
    is: white space around it is tested for, never removed.  Every other
    input is rejected before the core is invoked. *)
Theorem handlers_pass_identifiers_untrimmed input core w :
  handlers.handleRBACResolution input core w
  = match input with
    | JStr principal =>
        if whitespaceOnly principal
        then (Throw (ErrorObj "Invalid principal: must be a non-empty string"), w)
        else handlers.resolveRBAC core principal w
    | _ => (Throw (ErrorObj "Invalid principal: must be a non-empty string"), w)
    end
  ∧ handlers.handleFinOpsQuery input core w
    = match input with
      | JStr resourceId =>
          if whitespaceOnly resourceId
          then (Throw (ErrorObj "Invalid resourceId: must be a non-empty string"), w)
          else handlers.getFinOpsSummary core resourceId w
      | _ => (Throw (ErrorObj "Invalid resourceId: must be a non-empty string"), w)
      end.
Proof.
  unfold handlers.handleRBACResolution, handlers.handleFinOpsQuery,
    handlers.validatePrincipal, handlers.validateResourceId, handlers.trimsToEmpty.
  unfold_run.
  destruct input as [| |b|x|s|items|props]; simpl; try done.
  destruct (whitespaceOnly s) eqn:Hs.
  - by rewrite (trim_whitespaceOnly _ Hs).
  - by rewrite (whitespaceOnly_false_trim _ Hs).
Qed.


(* ====================================================================== *)
(** ** Properties of the services layer *)
(* ====================================================================== *)

Ltac unfold_service :=
  unfold services.call, services.now, services.ret, services.render, failureEnvelope in *.

(** X21.  [recordDecision] does not throw on an event that fails
    validation: it returns a failure envelope and does not call the
    dashboard.  The message lists the validation messages; when the schema
    collaborator sent no payload it reads "Schema validation failed:
    undefined", and the collaborator's own error message is not reported. *)
Theorem recordDecision_reports_invalid_event decision adapters w validation :
  services.validate adapters "governance-event" decision = Fulfilled validation →
  validationPassed (Fulfilled validation) = false →
  services.recordDecision decision adapters w
  = (Return (failureEnvelope
               ("Schema validation failed: "
                +:+ match AdapterResponse.data validation with
                    | Some result =>
                        join ", " (ValidationError.message
                                   <$> ValidationResult.errors result)
                    | None => "undefined"
                    end)),
     {| services.calls :=
          services.calls w ++ [services.Validate "governance-event" decision];
        services.ticks := services.ticks w |}).
Proof.
  intros Hvalidate Hfail. unfold services.recordDecision. unfold_service.
  rewrite Hvalidate. simpl in *.
  destruct (AdapterResponse.success validation); simpl in *; [|by destruct (AdapterResponse.data _)].
  destruct (AdapterResponse.data validation) as [result|]; simpl in *; [|done].
  by rewrite Hfail.
Qed.

(** X22.  For an event that passes validation [recordDecision] is the
    dashboard call: it returns the envelope the dashboard answers, a
    [success: false] one included, and it is rejected when that promise is;
    the validation call comes first and the dashboard call second. *)
Theorem recordDecision_returns_dashboard_answer decision adapters w validation :
  services.validate adapters "governance-event" decision = Fulfilled validation →
  validationPassed (Fulfilled validation) = true →
  services.recordDecision decision adapters w
  = (match publishEvent (services.dashboard adapters) decision with
     | Fulfilled published => Return published
     | Rejected e | Threw e => Throw e
     end,
     {| services.calls :=
          services.calls w ++ [services.Validate "governance-event" decision;
                               services.PublishEvent decision];
        services.ticks := services.ticks w |}).
Proof.
  intros Hvalidate Hpass. unfold services.recordDecision. unfold_service.
  rewrite Hvalidate. simpl in *.
  apply andb_prop in Hpass as [-> Hvalid]. rewrite Hvalid. simpl.
  rewrite <- app_assoc. by destruct (publishEvent _ _).
Qed.

(** X23.  [getGovernanceMetrics] reports an unusable answer in the envelope
    it returns.  When the cost answer is unusable the analytics hub is never
    queried and the message is "Failed to fetch cost metrics: " followed by
    the collaborator's error, or by "undefined" when it gave none; when only
    the analytics answer is unusable the message is "Failed to fetch
    analytics: ..." in the same way. *)
Theorem getGovernanceMetrics_failure_envelopes
    rt resourceId adapters w costResponse :
  let filters := serviceCostFilters rt resourceId (services.ticks w) in
  let analyticsQuery := serviceAnalyticsQuery rt resourceId (services.ticks w) in
  getCostMetrics (services.costOps adapters) filters = Fulfilled costResponse →
  (reportsFailure costResponse →
   services.getGovernanceMetrics rt resourceId adapters w
   = (Return (failureEnvelope
                ("Failed to fetch cost metrics: "
                 +:+ default "undefined" (AdapterResponse.error costResponse))),
      {| services.calls := services.calls w ++ [services.GetCostMetrics filters];
         services.ticks := 2 + services.ticks w |}))
  ∧ (∀ analyticsResponse,
       ¬ reportsFailure costResponse →
       services.query adapters analyticsQuery = Fulfilled analyticsResponse →
       reportsFailure analyticsResponse →
       services.getGovernanceMetrics rt resourceId adapters w
       = (Return (failureEnvelope
                    ("Failed to fetch analytics: "
                     +:+ default "undefined" (AdapterResponse.error analyticsResponse))),
          {| services.calls :=
               services.calls w ++ [services.GetCostMetrics filters;
                                    services.Query analyticsQuery];
             services.ticks := 4 + services.ticks w |})).
Proof.
  intros filters analyticsQuery Hcost. subst filters analyticsQuery.
  unfold services.getGovernanceMetrics, reportsFailure, serviceCostFilters,
    serviceAnalyticsQuery in *.
  unfold_service. simpl in *. rewrite Hcost. split.
  - intros [-> | ->]; [done|]. by destruct (AdapterResponse.success costResponse).
  - intros analyticsResponse Hok Hquery Hfail.
    destruct (AdapterResponse.success costResponse) eqn:Hs,
      (AdapterResponse.data costResponse) as [costMetrics|] eqn:Hd;
      try (exfalso; apply Hok; auto; fail).
    simpl in *. rewrite Hquery. rewrite <- app_assoc. simpl.
    destruct Hfail as [-> | ->]; [done|].
    by destruct (AdapterResponse.success analyticsResponse).
Qed.

(** X24.  When both answers are usable [getGovernanceMetrics] returns a
    success envelope that pairs the two payloads as they are; it has queried
    the cost collaborator, then the analytics hub, and read the clock four
    times, so the end of each window is read after its start. *)
Theorem getGovernanceMetrics_combines_payloads
    rt resourceId adapters w costResponse costMetrics analyticsResponse analyticsData :
  let filters := serviceCostFilters rt resourceId (services.ticks w) in
  let analyticsQuery := serviceAnalyticsQuery rt resourceId (services.ticks w) in
  getCostMetrics (services.costOps adapters) filters = Fulfilled costResponse →
  AdapterResponse.success costResponse = true →
  AdapterResponse.data costResponse = Some costMetrics →
  services.query adapters analyticsQuery = Fulfilled analyticsResponse →
  AdapterResponse.success analyticsResponse = true →
  AdapterResponse.data analyticsResponse = Some analyticsData →
  services.getGovernanceMetrics rt resourceId adapters w
  = (Return {| AdapterResponse.success := true;
               AdapterResponse.data :=
                 Some {| services.GovernanceMetrics.costMetrics := costMetrics;
                         services.GovernanceMetrics.analyticsData := analyticsData |};
               AdapterResponse.error := None |},
     {| services.calls :=
          services.calls w ++ [services.GetCostMetrics filters;
                               services.Query analyticsQuery];
        services.ticks := 4 + services.ticks w |}).
Proof.
  intros filters analyticsQuery Hcost Hcs Hcd Hquery Has Had.
  subst filters analyticsQuery.
  unfold services.getGovernanceMetrics, serviceCostFilters, serviceAnalyticsQuery in *.
  unfold_service. simpl in *.
  rewrite Hcost, Hcs, Hcd. simpl.
  rewrite Hquery, Has, Had. by rewrite <- app_assoc.
Qed.

(* ====================================================================== *)
(** ** Properties of the HTTP server and of the command line *)
(* ====================================================================== *)

(** X25.  The server answers 200 exactly to a GET of "/health" or of "/",
    compared as whole strings, so a query string, a trailing slash or
    another method gets the 404 answer "Not found"; every answer is declared
    as JSON. *)
Theorem requestListener_routes stringify env req :
  let res := server.requestListener stringify env req in
  server.headers res = [("Content-Type", "application/json")]
  ∧ (server.statusCode res = 200%Z
     ↔ server.method req = Some "GET"
       ∧ (server.url req = Some "/health" ∨ server.url req = Some "/"))
  ∧ (server.statusCode res ≠ 200%Z →
     server.statusCode res = 404%Z
     ∧ server.body res = stringify (JObj (<["error" := JStr "Not found"]> ∅))).
Proof.
  unfold server.requestListener.
  destruct (bool_decide_reflect (server.method req = Some "GET")) as [Hm|Hm];
    destruct (bool_decide_reflect (server.url req = Some "/health")) as [Hh|Hh];
    destruct (bool_decide_reflect (server.url req = Some "/")) as [Hr|Hr];
    simpl; split_and!; try done.
  all: split; [try done; tauto|]; try done; intros [? [?|?]]; done.
Qed.

Lemma indexOfFrom_found i x args j :
  cli.indexOfFrom i x args = j → j ≠ (-1)%Z → (0 ≤ i)%Z →
  ∃ before after,
    args = (before ++ x :: after)%list ∧ (x ∉ before)
    ∧ j = (i + Z.of_nat (length before))%Z.
Proof.
  revert i. induction args as [|y args IH]; intros i; simpl; [congruence|].
  destruct (String.eqb_spec y x) as [->|Hne].
  - intros <- _ _. exists [], args. split_and!; [done|apply not_elem_of_nil|simpl; lia].
  - intros Hj Hfound Hi. destruct (IH (i + 1)%Z Hj Hfound) as (before & after & -> & Hx & ->);
      [lia|].
    exists (y :: before), after. split_and!; [done| |simpl; lia].
    rewrite not_elem_of_cons. split; [congruence|done].
Qed.

Lemma indexOfFrom_first i x before after :
  x ∉ before →
  cli.indexOfFrom i x (before ++ x :: after) = (i + Z.of_nat (length before))%Z.
Proof.
  revert i. induction before as [|y before IH]; intros i Hx; simpl.
  - rewrite String.eqb_refl. lia.
  - apply not_elem_of_cons in Hx as [Hne Hx].
    destruct (String.eqb_spec y x) as [->|_]; [done|]. rewrite IH by done. lia.
Qed.

Lemma item_after (before : list string) x after :
  cli.item (before ++ x :: after) (Z.of_nat (length before) + 1) = head after.
Proof.
  unfold cli.item. destruct (Z.ltb_spec (Z.of_nat (length before) + 1) 0); [lia|].
  replace (Z.to_nat (Z.of_nat (length before) + 1)) with (length before + 1) by lia.
  rewrite lookup_app_r by lia.
  replace (length before + 1 - length before) with 1 by lia. simpl.
  by destruct after.
Qed.

(** One [case] of [main] runs its handler exactly when the flag occurs and
    the argument after its first occurrence is not empty. *)
Lemma flagged_runs_iff args flag message handler h :
  cli.flagged args flag message handler = cli.Run h
  ↔ ∃ before value after,
      args = (before ++ flag :: value :: after)%list
      ∧ (flag ∉ before) ∧ value ≠ "" ∧ h = handler value.
Proof.
  unfold cli.flagged, cli.indexOf. split.
  - destruct (Z.eqb_spec (cli.indexOfFrom 0 flag args) (-1)) as [|Hfound]; simpl; [done|].
    destruct (indexOfFrom_found 0 flag args _ eq_refl Hfound)
      as (before & rest & -> & Hflag & Hidx); [lia|].
    rewrite Hidx. simpl. rewrite item_after.
    destruct rest as [|value after]; simpl; [done|].
    destruct (String.eqb_spec value "") as [|Hvalue]; simpl; [done|].
    intros [= <-]. by exists before, value, after.
  - intros (before & value & after & -> & Hflag & Hvalue & ->).
    rewrite (indexOfFrom_first 0 _ _ _ Hflag). simpl. rewrite item_after. simpl.
    destruct (Z.eqb_spec (0 + Z.of_nat (length before)) (-1)) as [|_]; [lia|]. simpl.
    destruct (String.eqb_spec value "") as [|_]; done.
Qed.

(** X26.  [main] awaits the handler of a command that takes a value exactly
    when the arguments start with the command, the flag of the command
    occurs after it, and the argument after the first occurrence of the flag
    is not empty; that argument is the value handed over, whatever it is
    (another flag included) and whatever follows. *)
Theorem main_runs_handler_iff args command flag handler value :
  (command, flag, handler) ∈ cli.flaggedCommands →
  cli.main args = cli.Run (handler value)
  ↔ ∃ before after,
      args = command :: (before ++ flag :: value :: after)%list
      ∧ (flag ∉ before) ∧ value ≠ "".
Proof.
  intros Hcommand. unfold cli.flaggedCommands in Hcommand.
  repeat (apply elem_of_cons in Hcommand as [[= -> -> ->] | Hcommand]);
    [..|by apply elem_of_nil in Hcommand].
  all: split.
  all: try (intros (before & after & -> & Hflag & Hvalue);
            unfold cli.main; simpl; apply flagged_runs_iff;
            eexists (_ :: before), value, after; split; [reflexivity|];
            split_and!; [|done..]; rewrite not_elem_of_cons; split; [discriminate|done]).
  all: destruct args as [|word args]; [intros Hrun; cbv in Hrun; discriminate|].
  all: unfold cli.main; simpl.
  all: repeat match goal with
       | |- context [String.eqb ?v ?c] =>
           is_var v; destruct (String.eqb_spec v c) as [->|?]
       end; try done.
  all: intros Hrun; apply flagged_runs_iff in Hrun
         as (before & value' & after & Hargs & Hflag & Hvalue & Hh);
       try discriminate Hh.
  all: injection Hh as <-.
  all: destruct before as [|word before]; simpl in Hargs; [discriminate Hargs|].
  all: injection Hargs as <- ->.
  all: apply not_elem_of_cons in Hflag as [_ Hflag]; by exists before, after.
Qed.

(* ====================================================================== *)
(** ** The further statements at concrete collaborators *)
(* ====================================================================== *)

Import scenarios.

Lemma evaluateGovernance_calls_in_order_witness :
  ∃ warned,
    (warned = [] ∧ is_Some (GovernanceDecision.costImpact decision123)
     ∨ ∃ e, warned = [ConsoleWarn "Failed to retrieve cost data:" e]
            ∧ GovernanceDecision.costImpact decision123 = None)
    ∧ calls (snd (evaluateGovernance mockRuntime mockAdapters request123 world0))
      = ([EvaluatePolicy (policyRequestOf request123);
          GetCostMetrics (costFiltersOf "resource-abc" 1730000000000);
          GetForecast (forecastParamsOf "resource-abc")]
         ++ warned
         ++ [Track (analyticsEventOf request123 true 1730000000001);
             Validate "audit.signal.v1"
               (auditSignalOf mockRuntime request123
                  (GovernanceDecision.policyResults decision123) 1730000000003);
             PublishEvent
               (governanceEventOf mockRuntime
                  (auditSignalOf mockRuntime request123
                     (GovernanceDecision.policyResults decision123) 1730000000003))])%list
    ∧ ticks (snd (evaluateGovernance mockRuntime mockAdapters request123 world0)) = 4.
Proof.
  apply (evaluateGovernance_calls_in_order mockRuntime mockAdapters request123 world0
           decision123
           (snd (evaluateGovernance mockRuntime mockAdapters request123 world0))).
  vm_compute. reflexivity.
Defined.

Lemma evaluateGovernance_publishes_verdict_witness :
  ∃ event,
    last (calls (snd (evaluateGovernance mockRuntime denyAdapters request789 world0)))
    = Some (PublishEvent event)
    ∧ GovernanceEvent.eventType event = "audit.signal"
    ∧ GovernanceEvent.severity event = warning
    ∧ AuditSignal.outcome (GovernanceEvent.details event) = "denied"
    ∧ AuditSignal.action (GovernanceEvent.details event) = "delete"
    ∧ AuditSignal.principal (GovernanceEvent.details event) = "user-789"
    ∧ AuditSignal.resource (GovernanceEvent.details event) = "resource-sensitive".
Proof.
  apply (evaluateGovernance_publishes_verdict mockRuntime denyAdapters request789 world0
           decision789
           (snd (evaluateGovernance mockRuntime denyAdapters request789 world0))).
  vm_compute. reflexivity.
Defined.

Lemma evaluateGovernance_audit_failure_is_fatal_witness :
  fst (evaluateGovernance mockRuntime invalidSignalAdapters request123 world0)
  = Throw (ErrorObj ("Governance evaluation failed: "
                     +:+ "Audit signal emission failed: "
                     +:+ "Audit signal validation failed: unknown outcome, not a date"))
  ∧ Track (analyticsEventOf request123 true 1730000000001)
    ∈ calls (snd (evaluateGovernance mockRuntime invalidSignalAdapters request123 world0)).
Proof.
  eapply (evaluateGovernance_audit_failure_is_fatal mockRuntime invalidSignalAdapters
           request123 world0 _ readVerdict _
           (ErrorObj ("Audit signal emission failed: "
                      +:+ "Audit signal validation failed: unknown outcome, not a date"))).
  - reflexivity.
  - reflexivity.
  - reflexivity.
  - reflexivity.
  - vm_compute. reflexivity.
Defined.

Lemma evaluateGovernance_analytics_rejection_is_fatal_witness :
  fst (evaluateGovernance mockRuntime rejectingAnalyticsAdapters request123 world0)
  = Throw (ErrorObj "Governance evaluation failed: hub timeout")
  ∧ (∀ schemaId signal,
       Validate schemaId signal
       ∈ calls (snd (evaluateGovernance mockRuntime rejectingAnalyticsAdapters
                       request123 world0)) →
       Validate schemaId signal ∈ calls world0)
  ∧ (∀ published,
       PublishEvent published
       ∈ calls (snd (evaluateGovernance mockRuntime rejectingAnalyticsAdapters
                       request123 world0)) →
       PublishEvent published ∈ calls world0).
Proof.
  eapply (evaluateGovernance_analytics_rejection_is_fatal mockRuntime
           rejectingAnalyticsAdapters request123 world0 _ readVerdict
           (ErrorObj "hub timeout")); reflexivity.
Defined.

Lemma operations_throw_only_wrapped_errors_witness :
  ∃ cause, ErrorObj "Governance evaluation failed: engine unavailable"
           = ErrorObj ("Governance evaluation failed: " +:+ cause).
Proof.
  destruct (operations_throw_only_wrapped_errors mockRuntime policyDownAdapters request123
              "user-123" "resource-abc" signal0 world0
              (ErrorObj "Governance evaluation failed: engine unavailable"))
    as (Hevaluate & _).
  apply Hevaluate. vm_compute. reflexivity.
Defined.

Lemma getFinOpsSummary_throws_iff_witness :
  ∃ cause, fst (getFinOpsSummary mockRuntime forecastDownAdapters "resource-abc" world0)
           = Throw (ErrorObj ("FinOps summary failed: " +:+ cause)).
Proof.
  apply (getFinOpsSummary_throws_iff mockRuntime forecastDownAdapters "resource-abc" world0).
  right. simpl. right. reflexivity.
Defined.

Lemma getFinOpsSummary_reports_metrics_failure_first_witness :
  fst (getFinOpsSummary mockRuntime costDownAdapters "resource-abc" world0)
  = Throw (ErrorObj "FinOps summary failed: metrics down").
Proof.
  destruct (getFinOpsSummary_reports_metrics_failure_first mockRuntime costDownAdapters
              "resource-abc" world0 metricsDownResponse forecastDownResponse
              eq_refl eq_refl) as (Hmetrics & _).
  apply Hmetrics. left. reflexivity.
Defined.

Lemma emitAuditSignal_returns_iff_witness :
  ∃ w', emitAuditSignal mockRuntime mockAdapters signal0 world0 = (Return tt, w').
Proof.
  apply (emitAuditSignal_returns_iff mockRuntime mockAdapters signal0 world0).
  eexists _, _, _. split_and!; reflexivity.
Defined.

Lemma emitAuditSignal_severity_witness :
  ∃ event,
    last (calls (snd (emitAuditSignal mockRuntime mockAdapters shoutedSignal world0)))
    = Some (PublishEvent event)
    ∧ GovernanceEvent.details event = shoutedSignal
    ∧ GovernanceEvent.timestamp event
      = parseDate mockRuntime (AuditSignal.timestamp shoutedSignal)
    ∧ GovernanceEvent.eventType event = "audit.signal"
    ∧ (GovernanceEvent.severity event = warning
       ↔ AuditSignal.outcome shoutedSignal = "denied")
    ∧ (GovernanceEvent.severity event = info
       ↔ AuditSignal.outcome shoutedSignal ≠ "denied").
Proof.
  apply (emitAuditSignal_severity mockRuntime mockAdapters shoutedSignal world0).
  reflexivity.
Defined.





Lemma handleGovernanceRequest_rejects_bad_context_witness :
  handlers.handleGovernanceRequest (JObj arrayContextRequest)
    (createGovernanceCore mockRuntime mockAdapters) world0
  = (Throw (ErrorObj "Invalid request: context must be an object if provided"), world0).
Proof.
  apply (handleGovernanceRequest_rejects_bad_context arrayContextRequest
           "req-1" "res" "read" "user").
  1-4: split; reflexivity.
  intros [Habsent | [Hundefined | [object Hobject]]]; discriminate.
Defined.

Lemma handleGovernanceRequest_passes_request_unchanged_witness :
  handlers.handleGovernanceRequest (ofGovernanceRequest request123)
    (createGovernanceCore mockRuntime mockAdapters) world0
  = evaluateGovernance mockRuntime mockAdapters request123 world0.
Proof.
  apply (handleGovernanceRequest_passes_request_unchanged request123
           (createGovernanceCore mockRuntime mockAdapters) world0); reflexivity.
Defined.


Lemma recordDecision_reports_invalid_event_witness :
  services.recordDecision services.event0 services.downServiceAdapters services.world0
  = (Return (failureEnvelope "Schema validation failed: undefined"),
     {| services.calls := [services.Validate "governance-event" services.event0];
        services.ticks := 0 |}).
Proof.
  apply (recordDecision_reports_invalid_event services.event0
           services.downServiceAdapters services.world0
           (failureEnvelope "registry unavailable")); reflexivity.
Defined.

Lemma recordDecision_returns_dashboard_answer_witness :
  services.recordDecision services.event0 services.unavailableDashboardAdapters
    services.world0
  = (Return (failureEnvelope "dashboard unavailable"),
     {| services.calls := [services.Validate "governance-event" services.event0;
                           services.PublishEvent services.event0];
        services.ticks := 0 |}).
Proof.
  apply (recordDecision_returns_dashboard_answer services.event0
           services.unavailableDashboardAdapters services.world0
           {| AdapterResponse.success := true;
              AdapterResponse.data :=
                Some {| ValidationResult.valid := true; ValidationResult.errors := [] |};
              AdapterResponse.error := None |}); reflexivity.
Defined.

Lemma getGovernanceMetrics_failure_envelopes_witness :
  services.getGovernanceMetrics mockRuntime "resource-abc" services.downServiceAdapters
    services.world0
  = (Return (failureEnvelope "Failed to fetch cost metrics: undefined"),
     {| services.calls :=
          [services.GetCostMetrics (serviceCostFilters mockRuntime "resource-abc" 0)];
        services.ticks := 2 |})
  ∧ services.getGovernanceMetrics mockRuntime "resource-abc"
      services.unavailableDashboardAdapters services.world0
    = (Return (failureEnvelope "Failed to fetch analytics: hub unavailable"),
       {| services.calls :=
            [services.GetCostMetrics (serviceCostFilters mockRuntime "resource-abc" 0);
             services.Query (serviceAnalyticsQuery mockRuntime "resource-abc" 0)];
          services.ticks := 4 |}).
Proof.
  split.
  - destruct (getGovernanceMetrics_failure_envelopes mockRuntime "resource-abc"
                services.downServiceAdapters services.world0 _ eq_refl) as (Hcost & _).
    apply Hcost. left. reflexivity.
  - destruct (getGovernanceMetrics_failure_envelopes mockRuntime "resource-abc"
                services.unavailableDashboardAdapters services.world0 _ eq_refl)
      as (_ & Hanalytics).
    apply (Hanalytics (failureEnvelope "hub unavailable")).
    + intros [Hfalse | Hnone]; discriminate.
    + reflexivity.
    + left. reflexivity.
Defined.

Lemma getGovernanceMetrics_combines_payloads_witness :
  fst (services.getGovernanceMetrics mockRuntime "resource-abc"
         services.mockServiceAdapters services.world0)
  = Return {| AdapterResponse.success := true;
              AdapterResponse.data :=
                Some {| services.GovernanceMetrics.costMetrics :=
                          {| CostMetrics.totalCost := 100; CostMetrics.currency := "USD" |};
                        services.GovernanceMetrics.analyticsData :=
                          <["requests" := JStr "12"]> ∅ |};
              AdapterResponse.error := None |}.
Proof.
  erewrite (getGovernanceMetrics_combines_payloads mockRuntime "resource-abc"
              services.mockServiceAdapters services.world0); reflexivity.
Defined.

Lemma requestListener_routes_witness :
  server.statusCode
    (server.requestListener (λ _, "{}") ∅
       {| server.method := Some "GET"; server.url := Some "/health?verbose=1" |})
  = 404%Z.
Proof.
  destruct (requestListener_routes (λ _, "{}") ∅
              {| server.method := Some "GET"; server.url := Some "/health?verbose=1" |})
    as (_ & _ & Hother).
  apply Hother. discriminate.
Defined.

Lemma main_runs_handler_iff_witness :
  cli.main ["rbac"; "--verbose"; "--principal"; "--principal"; "alice"]
  = cli.Run (cli.handleRbac "--principal").
Proof.
  apply (main_runs_handler_iff _ "rbac" "--principal" cli.handleRbac "--principal").
  - unfold cli.flaggedCommands. rewrite !elem_of_cons. auto.
  - exists ["--verbose"], ["alice"]. split_and!; [reflexivity| |discriminate].
    rewrite not_elem_of_cons. split; [discriminate|apply not_elem_of_nil].
Defined.

(** A [getCostMetrics] that throws instead of returning a promise: the
    forecast is never asked for, and the evaluation still returns. *)
Example evaluateGovernance_skips_forecast_when_metrics_throw :
  ∃ decision w',
    evaluateGovernance mockRuntime throwingMetricsAdapters request123 world0
    = (Return decision, w')
    ∧ GovernanceDecision.costImpact decision = None
    ∧ calls w'
      = [EvaluatePolicy (policyRequestOf request123);
         GetCostMetrics (costFiltersOf "resource-abc" 1730000000000);
         ConsoleWarn "Failed to retrieve cost data:"
           (ErrorObj "FinOps summary failed: not connected");
         Track (analyticsEventOf request123 true 1730000000001);
         Validate "audit.signal.v1"
           (auditSignalOf mockRuntime request123
              (GovernanceDecision.policyResults decision123) 1730000000003);
         PublishEvent
           (governanceEventOf mockRuntime
              (auditSignalOf mockRuntime request123
                 (GovernanceDecision.policyResults decision123) 1730000000003))].
Proof. eexists _, _. split_and!; vm_compute; reflexivity. Qed.

(** When the promises of both cost queries are rejected, the summary
    reports the rejection that comes first. *)
Example getFinOpsSummary_reports_the_first_rejection :
  fst (getFinOpsSummary mockRuntime rejectingCostAdapters "resource-abc" world0)
  = Throw (ErrorObj "FinOps summary failed: metrics timeout")
  ∧ fst (getFinOpsSummary laterFirstRuntime rejectingCostAdapters "resource-abc" world0)
    = Throw (ErrorObj "FinOps summary failed: forecast timeout").
Proof. split; vm_compute; reflexivity. Qed.

(** Configuration values the casts do not expect.  Roles that are a
    number are no array; a role that is no string is looked up under the
    string it converts to, and kept as it is; permissions that are a
    string are kept as one permission, and numbers among them are
    deduplicated as numbers; an object that hides [toString] cannot name a
    role. *)
Example resolveRBAC_roles_of_a_number :
  fst (resolveRBAC mockRuntime (constantConfigAdapters (JObj {["roles" := JNum 5]}))
         "user-123" world0)
  = Throw (ErrorObj "RBAC resolution failed: roles.map is not a function").
Proof. vm_compute. reflexivity. Qed.

Example resolveRBAC_role_that_is_null :
  resolveRBAC mockRuntime
    (constantConfigAdapters
       (JObj (<["roles" := JArr [JNull]]> {["permissions" := JStr "read"]})))
    "user-123" world0
  = (Return {| RBACContext.principal := "user-123";
               RBACContext.roles := [JNull];
               RBACContext.permissions := [JStr "read"];
               RBACContext.scope := None |},
     {| calls := [GetConfig "rbac.roles.user-123"; GetConfig "rbac.permissions.null"];
        ticks := 0 |}).
Proof. vm_compute. reflexivity. Qed.

Example resolveRBAC_permissions_that_are_numbers :
  fst (resolveRBAC mockRuntime
         (constantConfigAdapters
            (JObj (<["roles" := JArr [JStr "a"; JStr "b"]]>
                     {["permissions" := JArr [JNum 1; JNum 1]]})))
         "user-123" world0)
  = Return {| RBACContext.principal := "user-123";
              RBACContext.roles := [JStr "a"; JStr "b"];
              RBACContext.permissions := [JNum 1];
              RBACContext.scope := None |}.
Proof. vm_compute. reflexivity. Qed.

Example resolveRBAC_role_without_a_name :
  resolveRBAC mockRuntime
    (constantConfigAdapters
       (JObj {["roles" := JArr [JObj {["toString" := JNull]}; JStr "admin"]]}))
    "user-123" world0
  = (Throw (ErrorObj "RBAC resolution failed: Cannot convert object to primitive value"),
     {| calls := [GetConfig "rbac.roles.user-123"; GetConfig "rbac.permissions.admin"];
        ticks := 0 |}).
Proof. vm_compute. reflexivity. Qed.
